(** * HT16K33: display buffer, command bytes and flush of the I2C LED driver

    Shallow embedding of [grid_io/ht16k33.py].  The driver object is a
    record holding the software buffer (a Python [bytearray] of 16 row
    bytes) and the handle of the I2C base class; the methods are programs
    of a state-and-exception monad over that record.  The base class
    [I2CDevice] is an external collaborator: its two write operations and
    the exception they raise are parameters of the development. *)

From Stdlib Require Import ZArith String Lia.
From stdpp Require Import base list.

Local Open Scope Z_scope.

(** ** Python values and containers *)

(** The objects a caller stores in a bitmap cell or passes as a bit. *)
Inductive pyval : Type :=
  | PyInt (z : Z)
  | PyBool (b : bool)
  | PyNone.

(** Python's [==] on these objects: [bool] is a subclass of [int]. *)
Definition py_eq (a b : pyval) : bool :=
  match a, b with
  | PyInt x, PyInt y => x =? y
  | PyInt x, PyBool c => x =? Z.b2z c
  | PyBool c, PyInt y => Z.b2z c =? y
  | PyBool c, PyBool d => Z.b2z c =? Z.b2z d
  | PyNone, PyNone => true
  | _, _ => false
  end.

(** [e in l] for a list literal [l]. *)
Definition py_in (e : pyval) (l : list pyval) : bool :=
  existsb (py_eq e) l.

(** [range(n)]. *)
Definition range (n : Z) : list Z :=
  map Z.of_nat (seq 0 (Z.to_nat n)).

(** [enumerate(l)], counting from [start]. *)
Fixpoint enumerate_from {A : Type} (start : Z) (l : list A) : list (Z * A) :=
  match l with
  | [] => []
  | x :: l' => (start, x) :: enumerate_from (start + 1) l'
  end.

Definition enumerate {A : Type} (l : list A) : list (Z * A) :=
  enumerate_from 0 l.

(** Index normalisation of Python sequences: a negative index counts
    from the end; [None] stands for an index outside the sequence. *)
Definition py_index (len : nat) (i : Z) : option nat :=
  let j := if i <? 0 then i + Z.of_nat len else i in
  if (0 <=? j) && (j <? Z.of_nat len) then Some (Z.to_nat j) else None.

Definition is_bit (e : pyval) : bool :=
  py_in e [PyInt 0; PyInt 1; PyBool false; PyBool true].

(** ** Constants of the class *)

Module HT16K33.
Definition BLINK_OFF : Z := 0.
Definition BLINK_2HZ : Z := 1.
Definition BLINK_1HZ : Z := 2.
Definition BLINK_HALFHZ : Z := 3.

Definition _BLINK_DISPLAYON : Z := 0x01.
Definition _SYSTEM_OSCILLATOR_ON : Z := 0x01.

Definition _CMD_BLINK : Z := 0x80.
Definition _CMD_BRIGHTNESS : Z := 0xE0.
Definition _CMD_SYSTEM_SETUP : Z := 0x20.

Definition _MEM_ROWS : Z := 16.
Definition _MEM_COLS : Z := 8.
End HT16K33.

(** ** The driver over an abstract transport *)

(** What the driver asks of the bus: a raw command byte, or a byte for a
    register address. *)
Inductive call : Type :=
  | RawWrite (byte : Z)
  | RegisterWriteU8 (address value : Z).

(** The exceptions that leave the driver.  A failed [assert] raises
    [AssertionError] whichever condition it checked: the driver has no
    exception classes of its own, so a rejected coordinate, a rejected
    value and a rejected bitmap shape all reach the caller as this one
    exception.  [__delitem__] raises [RuntimeError].  Whatever the base
    class raises on a failed bus write travels up unchanged, from [flush],
    from the setters and from the constructor alike; it is carried by
    [TransportError]. *)
Inductive exn (E : Type) : Type :=
  | AssertionError
  | RuntimeError (msg : string)
  | IndexError
  | ValueError
  | TransportError (e : E).

Arguments AssertionError {E}.
Arguments RuntimeError {E} msg.
Arguments IndexError {E}.
Arguments ValueError {E}.
Arguments TransportError {E} e.

Inductive outcome (E A : Type) : Type :=
  | Return (a : A)
  | Raise (e : exn E).

Arguments Return {E A} a.
Arguments Raise {E A} e.

(** The object: its buffer attribute, the state of the bus behind the base
    class, and the record of every transport call attempted so far with
    what the bus answered ([None]: the call returned, [Some e]: it raised
    [e]). *)
Record device (bus E : Type) : Type := Device {
  _display_buffer : list Z;
  i2c : bus;
  wire : list (call * option E)
}.

Arguments Device {bus E} _ _ _.
Arguments _display_buffer {bus E} d.
Arguments i2c {bus E} d.
Arguments wire {bus E} d.

Section Driver.

(** The transport collaborator ([I2CDevice.write] and
    [I2CDevice.register_write_u8]) and the exception it raises. *)
Context {bus E : Type}.
Variable i2c_write : Z -> bus -> bus * option E.
Variable i2c_register_write_u8 : Z -> Z -> bus -> bus * option E.

Definition M (A : Type) : Type :=
  device bus E -> outcome E A * device bus E.

Definition ret {A : Type} (a : A) : M A := fun s => (Return a, s).

Definition bind {A B : Type} (m : M A) (k : A -> M B) : M B :=
  fun s =>
    match m s with
    | (Return a, s') => k a s'
    | (Raise e, s') => (Raise e, s')
    end.

Definition raise {A : Type} (e : exn E) : M A := fun s => (Raise e, s).

Notation "x <~ m ; k" := (bind m (fun x => k))
  (at level 100, m at next level, right associativity, only parsing).
Notation "m ;; k" := (bind m (fun _ => k))
  (at level 100, k at level 200, right associativity, only parsing).

(** The [assert] statement. *)
Definition assert (c : bool) : M unit :=
  if c then ret tt else raise AssertionError.

(** A [for] loop whose body runs for its effect. *)
Fixpoint for_ {A : Type} (l : list A) (body : A -> M unit) : M unit :=
  match l with
  | [] => ret tt
  | x :: l' => body x ;; for_ l' body
  end.

(** [l[i]] on a Python list. *)
Definition list_getitem {A : Type} (l : list A) (i : Z) : M A :=
  match py_index (length l) i with
  | Some n =>
      match l !! n with
      | Some x => ret x
      | None => raise IndexError
      end
  | None => raise IndexError
  end.

(** [self._display_buffer[i]]. *)
Definition buffer_getitem (i : Z) : M Z :=
  fun s => list_getitem (_display_buffer s) i s.

(** [self._display_buffer[i] = v]: a bytearray holds integers of
    [range(256)] only. *)
Definition buffer_setitem (i v : Z) : M unit :=
  fun s =>
    match py_index (length (_display_buffer s)) i with
    | Some n =>
        if (0 <=? v) && (v <? 256)
        then (Return tt,
              Device (<[n := v]> (_display_buffer s)) (i2c s) (wire s))
        else (Raise ValueError, s)
    | None => (Raise IndexError, s)
    end.

(** [self.write(byte)] and [self.register_write_u8(address, value)]:
    the base class is called, the call and its answer are recorded. *)
Definition perform (c : call) : M unit :=
  fun s =>
    let '(h, r) :=
      match c with
      | RawWrite b => i2c_write b (i2c s)
      | RegisterWriteU8 a v => i2c_register_write_u8 a v (i2c s)
      end in
    let s' := Device (_display_buffer s) h (wire s ++ [(c, r)]) in
    match r with
    | None => (Return tt, s')
    | Some e => (Raise (TransportError e), s')
    end.

Definition write (byte : Z) : M unit := perform (RawWrite byte).

Definition register_write_u8 (address value : Z) : M unit :=
  perform (RegisterWriteU8 address value).

Definition set_brightness (value : Z) : M unit :=
  assert ((0 <=? value) && (value <=? 15)) ;;
  write (Z.lor HT16K33._CMD_BRIGHTNESS value).

Definition set_blink_rate (value : Z) : M unit :=
  assert (existsb (Z.eqb value)
            [HT16K33.BLINK_OFF; HT16K33.BLINK_2HZ;
             HT16K33.BLINK_1HZ; HT16K33.BLINK_HALFHZ]) ;;
  write (Z.lor (Z.lor HT16K33._CMD_BLINK HT16K33._BLINK_DISPLAYON)
               (Z.shiftl value 1)).

Definition flush : M unit :=
  fun s =>
    for_ (enumerate (_display_buffer s))
         (fun '(address, value) => register_write_u8 address value) s.

Definition __getitem__ (key : Z * Z) : M Z :=
  let '(row, column) := key in
  assert ((0 <=? row) && (row <? HT16K33._MEM_ROWS)) ;;
  assert ((0 <=? column) && (column <? HT16K33._MEM_COLS)) ;;
  v <~ buffer_getitem row ;
  ret (Z.land (Z.shiftr v column) 0x1).

Definition __setitem__ (key : Z * Z) (value : pyval) : M unit :=
  let '(row, column) := key in
  let value :=
    match value with
    | PyBool true => PyInt 1
    | PyBool false => PyInt 0
    | _ => value
    end in
  assert ((0 <=? row) && (row <? HT16K33._MEM_ROWS)) ;;
  assert ((0 <=? column) && (column <? HT16K33._MEM_COLS)) ;;
  assert (py_in value [PyInt 0; PyInt 1]) ;;
  if py_eq value (PyInt 0)
  then
    v <~ buffer_getitem row ;
    buffer_setitem row
      (Z.land v (Z.land (Z.lnot (Z.shiftl 0x1 column)) 0xFFFF))
  else
    v <~ buffer_getitem row ;
    buffer_setitem row (Z.lor v (Z.shiftl 0x1 column)).

Definition __delitem__ (key : Z * Z) : M unit :=
  raise (RuntimeError "Cannot delete bits").

Definition write_bitmap (bitmap : list (list pyval)) : M unit :=
  assert (Z.of_nat (length bitmap) =? HT16K33._MEM_ROWS) ;;
  for_ bitmap (fun row =>
    assert (Z.of_nat (length row) =? HT16K33._MEM_COLS) ;;
    assert (forallb is_bit row)) ;;
  for_ (range HT16K33._MEM_ROWS) (fun row =>
    for_ (range HT16K33._MEM_COLS) (fun column =>
      r <~ list_getitem bitmap row ;
      e <~ list_getitem r column ;
      __setitem__ (row, column) e)).

(** [__init__], from the point where the base class constructor has
    returned the open bus [h]. *)
Definition __init__ (h : bus) : outcome E unit * device bus E :=
  (write (Z.lor HT16K33._CMD_SYSTEM_SETUP HT16K33._SYSTEM_OSCILLATOR_ON) ;;
   flush ;;
   set_blink_rate HT16K33.BLINK_OFF ;;
   set_brightness 15)
    (Device (repeat 0 (Z.to_nat HT16K33._MEM_ROWS)) h []).

(** *** Observations on the transport, used to state the properties *)

(** What one raw write of [byte] leaves behind: the bus has moved on,
    the call and its answer are on record, the buffer is untouched. *)
Definition after_write (byte : Z) (s : device bus E) : device bus E :=
  Device (_display_buffer s) (fst (i2c_write byte (i2c s)))
         (wire s ++ [(RawWrite byte, snd (i2c_write byte (i2c s)))]).

(** What the caller sees of a transport call that answered [r]. *)
Definition surfaced (r : option E) : outcome E unit :=
  match r with
  | None => Return tt
  | Some e => Raise (TransportError e)
  end.

(** A call that the bus answered without raising. *)
Definition answered (c : call) : call * option E := (c, None).

(** One call, made on the bus in state [h]: the state the bus moves to
    and its answer. *)
Definition bus_call (c : call) (h : bus) : bus * option E :=
  match c with
  | RawWrite b => i2c_write b h
  | RegisterWriteU8 a v => i2c_register_write_u8 a v h
  end.

(** The bus after all of the calls [cs] have been made on it, in order. *)
Definition bus_after (cs : list call) (h : bus) : bus :=
  fold_left (fun h1 c => fst (bus_call c h1)) cs h.

(** What the bus answers to the call numbered [k] of [cs] (from 0), the
    calls before it having been made: [None] when it returns, [Some e]
    when it raises [e]. *)
Definition answer_at (cs : list call) (k : nat) (h : bus) : option E :=
  match cs !! k with
  | Some c => snd (bus_call c (bus_after (take k cs) h))
  | None => None
  end.

(** [puts_on_bus cs s result]: [result], the outcome and final object of
    a method started on [s], is that of making the calls [cs] on the bus
    of [s] one after the other and stopping at the first that raises.
    - If the bus answers every call, the method returns; the bus has
      received all of [cs] and the record shows them all answered.
    - If the call numbered [k] is the first the bus raises on, with [e],
      the method raises [e]; the bus has received the calls up to and
      including that one and no other, and the record ends with it.
    The buffer is that of [s] in both cases. *)
Definition puts_on_bus (cs : list call) (s : device bus E)
    (result : outcome E unit * device bus E) : Prop :=
  ((forall j : nat, (j < length cs)%nat -> answer_at cs j (i2c s) = None) ->
   result
   = (Return tt,
      Device (_display_buffer s) (bus_after cs (i2c s))
             (wire s ++ map answered cs)))
  /\ (forall (k : nat) (c : call) (e : E),
        cs !! k = Some c ->
        (forall j : nat, (j < k)%nat -> answer_at cs j (i2c s) = None) ->
        answer_at cs k (i2c s) = Some e ->
        result
        = (Raise (TransportError e),
           Device (_display_buffer s) (bus_after (take (S k) cs) (i2c s))
                  (wire s ++ map answered (take k cs) ++ [(c, Some e)]))).

(** *** The loop bodies of [write_bitmap], named *)

Definition check_row (row : list pyval) : M unit :=
  assert (Z.of_nat (length row) =? HT16K33._MEM_COLS) ;;
  assert (forallb is_bit row).

Definition copy_cell (bitmap : list (list pyval)) (row column : Z) : M unit :=
  r <~ list_getitem bitmap row ;
  e <~ list_getitem r column ;
  __setitem__ (row, column) e.

Definition copy_row (bitmap : list (list pyval)) (row : Z) : M unit :=
  for_ (range HT16K33._MEM_COLS) (copy_cell bitmap row).

End Driver.

(** ** Vocabulary of the properties *)

(** A buffer as the constructor leaves it and every method keeps it:
    sixteen rows, each a byte. *)
Definition wf_buffer (b : list Z) : Prop :=
  length b = 16%nat /\ Forall (fun v => 0 <= v < 256) b.

Definition valid_cell (row column : Z) : Prop :=
  0 <= row < 16 /\ 0 <= column < 8.

(** The bit a buffer holds for a cell. *)
Definition bit_of (b : list Z) (row column : Z) : Z :=
  Z.b2z (Z.testbit (default 0 (b !! Z.to_nat row)) column).

(** The bit an accepted value stands for. *)
Definition bit_value (v : pyval) : Z :=
  if py_eq v (PyInt 0) then 0 else 1.

(** A bit value read as an integer: [True] is 1, [False] is 0. *)
Definition as_bit (e : pyval) : Z :=
  match e with
  | PyInt z => z
  | PyBool b => Z.b2z b
  | PyNone => 0
  end.

(** [bitmap[row][column]] for coordinates inside the matrix. *)
Definition bitmap_cell (bitmap : list (list pyval)) (row column : Z)
  : option pyval :=
  match bitmap !! Z.to_nat row with
  | Some r => r !! Z.to_nat column
  | None => None
  end.

(** What the consistency check of [write_bitmap] asks of one row. *)
Definition good_row (row : list pyval) : bool :=
  (Z.of_nat (length row) =? HT16K33._MEM_COLS) && forallb is_bit row.

(** A matrix the caller may load: sixteen rows of eight cells, every
    cell one of 0, 1, False, True. *)
Definition bit_matrix (bitmap : list (list pyval)) : Prop :=
  length bitmap = 16%nat
  /\ forall row, In row bitmap ->
       length row = 8%nat
       /\ forall e, In e row ->
            e = PyInt 0 \/ e = PyInt 1 \/ e = PyBool false \/ e = PyBool true.

(** The register writes of one flush of the buffer [b]: address [k]
    carries row [k], for [k] from 0 to 15. *)
Definition row_writes (b : list Z) : list call :=
  map (fun k => RegisterWriteU8 (Z.of_nat k) (default 0 (b !! k)))
      (seq 0 16).

(** The calls of the chip initialization routine. *)
Definition init_calls : list call :=
  [RawWrite 0x21] ++ row_writes (repeat 0 16%nat)
  ++ [RawWrite 0x81; RawWrite 0xEF].

(** ** A bus to run the driver on

    The bus counts the calls it has received; the call numbered
    [fail_at] (counting from 0) raises the error code 5, every other call
    is answered. *)

Definition flaky_write (fail_at : nat) (byte : Z) (h : nat)
  : nat * option nat :=
  (S h, if Nat.eqb h fail_at then Some 5%nat else None).

Definition flaky_register_write_u8 (fail_at : nat) (address value : Z)
    (h : nat) : nat * option nat :=
  (S h, if Nat.eqb h fail_at then Some 5%nat else None).

(** A device in the middle of its life: some rows lit, a fresh bus. *)
Definition demo : device nat nat :=
  Device [0xFF; 0x00; 0x81; 0x20; 0x00; 0x00; 0x00; 0x00;
          0x00; 0x00; 0x00; 0x00; 0x00; 0x00; 0x5A; 0x01] 0%nat [].

(** A chequered bitmap that mixes integers and booleans. *)
Definition chequer_row (odd : bool) : list pyval :=
  if odd
  then [PyInt 0; PyBool true; PyInt 0; PyInt 1;
        PyBool false; PyInt 1; PyInt 0; PyBool true]
  else [PyInt 1; PyBool false; PyBool true; PyInt 0;
        PyInt 1; PyInt 0; PyBool true; PyInt 0].

Definition chequer : list (list pyval) :=
  map (fun k => chequer_row (Nat.odd k)) (seq 0 16).

(** ** The rest of the class: [rows], [columns], [fill], [clear],
       [__iter__], [__str__], [__repr__] *)

(** [list(s)]: the characters of a string, each a string of length one. *)
Definition py_list_of_str (s : string) : list string :=
  map (fun c => String c EmptyString) (list_ascii_of_string s).

(** The binary digits of a positive integer, most significant first. *)
Fixpoint bin_digits (p : positive) : string :=
  match p with
  | xH => "1"%string
  | xO q => String.append (bin_digits q) "0"
  | xI q => String.append (bin_digits q) "1"
  end.

(** Left padding with the character 0 up to [width]. *)
Definition zero_pad (width : nat) (digits : string) : string :=
  String.append
    (String.concat "" (repeat "0"%string (width - String.length digits)))
    digits.

(** ['{:0<width>b}'.format(v)]: binary, no prefix, zero padded after the
    sign up to a total of [width] characters. *)
Definition format_0b (width : nat) (v : Z) : string :=
  match v with
  | Z0 => zero_pad width "0"
  | Zpos p => zero_pad width (bin_digits p)
  | Zneg p => String.append "-" (zero_pad (width - 1) (bin_digits p))
  end.

Definition newline : string := String (Ascii.ascii_of_nat 10) EmptyString.

Section Rest.

Context {bus E : Type}.

Notation "x <~ m ; k" := (bind m (fun x => k))
  (at level 100, m at next level, right associativity, only parsing).
Notation "m ;; k" := (bind m (fun _ => k))
  (at level 100, k at level 200, right associativity, only parsing).

(** The two read-only properties of the object. *)
Definition rows (self : device bus E) : Z := HT16K33._MEM_ROWS.

Definition columns (self : device bus E) : Z := HT16K33._MEM_COLS.

(** [fill].  Past the assertion [value] is an integer equal to 0 or 1,
    and [value * 255] is the product of integers; [as_bit] reads that
    integer. *)
Definition fill (value : pyval) : M (bus := bus) (E := E) unit :=
  let value :=
    match value with
    | PyBool true => PyInt 1
    | PyBool false => PyInt 0
    | _ => value
    end in
  assert (py_in value [PyInt 0; PyInt 1]) ;;
  for_ (range HT16K33._MEM_ROWS) (fun row =>
    buffer_setitem row (as_bit value * 255)).

Definition clear : M (bus := bus) (E := E) unit := fill (PyInt 0).

(** [__iter__]: the keys the generator yields, in the order it yields
    them. *)
Definition __iter__ (self : device bus E) : list (Z * Z) :=
  flat_map (fun row => map (fun column => (row, column))
                           (range HT16K33._MEM_COLS))
           (range HT16K33._MEM_ROWS).

Definition __str__ (self : device bus E) : string :=
  let output :=
    map (fun row =>
           String.concat " "
             (rev (py_list_of_str
                     (format_0b (Z.to_nat HT16K33._MEM_COLS) row))))
        (_display_buffer self) in
  String.concat newline output.

Definition __repr__ (self : device bus E) : string := __str__ self.

(** *** A caller of the public methods *)

(** One call of a method of the object, with its arguments. *)
Inductive method : Type :=
  | SetBrightness (value : Z)
  | SetBlinkRate (value : Z)
  | Flush
  | Fill (value : pyval)
  | Clear
  | WriteBitmap (bitmap : list (list pyval))
  | GetItem (key : Z * Z)
  | SetItem (key : Z * Z) (value : pyval)
  | DelItem (key : Z * Z).

Variable i2c_write : Z -> bus -> bus * option E.
Variable i2c_register_write_u8 : Z -> Z -> bus -> bus * option E.

(** The call made, its result dropped. *)
Definition invoke (m : method) : M unit :=
  match m with
  | SetBrightness v => set_brightness i2c_write i2c_register_write_u8 v
  | SetBlinkRate v => set_blink_rate i2c_write i2c_register_write_u8 v
  | Flush => flush i2c_write i2c_register_write_u8
  | Fill v => fill v
  | Clear => clear
  | WriteBitmap bitmap => write_bitmap bitmap
  | GetItem key => _ <~ __getitem__ key ; ret tt
  | SetItem key v => __setitem__ key v
  | DelItem key => __delitem__ key
  end.

(** A caller that makes the calls [ms] one after the other and carries on
    after an exception: the object it ends with. *)
Definition session (ms : list method) (s : device bus E) : device bus E :=
  fold_left (fun s1 m => snd (invoke m s1)) ms s.

End Rest.

(** Whether a method only concerns the software buffer. *)
Definition buffer_only (m : method) : bool :=
  match m with
  | SetBrightness _ | SetBlinkRate _ | Flush => false
  | _ => true
  end.

(** The text for one bit. *)
Definition bit_char (b : Z) : string :=
  if b =? 0 then "0"%string else "1"%string.

(** A 16 x 8 matrix with [e] in every cell. *)
Definition constant_bitmap (e : pyval) : list (list pyval) :=
  repeat (repeat e 8) 16.

Ltac run :=
  unfold bind, assert, ret, raise, buffer_getitem, buffer_setitem,
    list_getitem in *.

(** * Properties *)

(** ** Bit-level facts about one row byte *)

Lemma shiftr_land_1 (v c : Z) :
  0 <= c -> Z.land (Z.shiftr v c) 0x1 = Z.b2z (Z.testbit v c).
Proof.
  intros Hc. rewrite Z.testbit_spec' by assumption.
  rewrite Z.shiftr_div_pow2 by assumption.
  change 0x1 with (Z.ones 1). now rewrite Z.land_ones by lia.
Qed.

Lemma testbit_shiftl_1 (c n : Z) :
  0 <= c -> Z.testbit (Z.shiftl 0x1 c) n = (c =? n).
Proof.
  intros Hc. rewrite Z.shiftl_1_l. now apply Z.pow2_bits_eqb.
Qed.

Lemma byte_high_bits (v : Z) :
  0 <= v < 256 -> forall n, 8 <= n -> Z.testbit v n = false.
Proof.
  intros Hv. apply (Z.bounded_iff_bits_nonneg 8 v); lia.
Qed.

Lemma set_bit_byte (v c : Z) :
  0 <= v < 256 -> 0 <= c < 8 ->
  0 <= Z.lor v (Z.shiftl 0x1 c) < 256.
Proof.
  intros Hv Hc.
  assert (H0 : 0 <= Z.lor v (Z.shiftl 0x1 c)).
  { apply Z.lor_nonneg. split; [lia | apply Z.shiftl_nonneg; lia]. }
  split; [exact H0 |].
  apply (Z.bounded_iff_bits_nonneg 8); [lia | exact H0 |].
  intros n Hn. rewrite Z.lor_spec, testbit_shiftl_1 by lia.
  rewrite (byte_high_bits v Hv n Hn). simpl. apply Z.eqb_neq. lia.
Qed.

Lemma set_bit_testbit (v c n : Z) :
  0 <= c ->
  Z.testbit (Z.lor v (Z.shiftl 0x1 c)) n = Z.testbit v n || (c =? n).
Proof.
  intros Hc. now rewrite Z.lor_spec, testbit_shiftl_1.
Qed.

Lemma clear_bit_byte (v c : Z) :
  0 <= v < 256 ->
  0 <= Z.land v (Z.land (Z.lnot (Z.shiftl 0x1 c)) 0xFFFF) < 256.
Proof.
  intros Hv.
  assert (H0 : 0 <= Z.land v (Z.land (Z.lnot (Z.shiftl 0x1 c)) 0xFFFF)).
  { apply Z.land_nonneg. left. lia. }
  split; [exact H0 |].
  apply (Z.bounded_iff_bits_nonneg 8); [lia | exact H0 |].
  intros n Hn. rewrite Z.land_spec.
  now rewrite (byte_high_bits v Hv n Hn).
Qed.

Lemma clear_bit_testbit (v c n : Z) :
  0 <= c -> 0 <= n < 16 ->
  Z.testbit (Z.land v (Z.land (Z.lnot (Z.shiftl 0x1 c)) 0xFFFF)) n
  = Z.testbit v n && negb (c =? n).
Proof.
  intros Hc Hn.
  rewrite !Z.land_spec, Z.lnot_spec, testbit_shiftl_1 by lia.
  change 0xFFFF with (Z.ones 16).
  rewrite Z.ones_spec_low by lia. now rewrite andb_true_r.
Qed.

(** ** The buffer invariant and the cell accessors *)

Lemma py_index_valid (len : nat) (i : Z) :
  0 <= i < Z.of_nat len -> py_index len i = Some (Z.to_nat i).
Proof.
  intros Hi. unfold py_index.
  destruct (Z.ltb_spec i 0) as [Hn | _]; [lia |].
  destruct (Z.leb_spec 0 i) as [_ | Hn]; [| lia].
  destruct (Z.ltb_spec i (Z.of_nat len)) as [_ | Hn]; [| lia].
  reflexivity.
Qed.

Lemma wf_buffer_lookup (b : list Z) (row : Z) :
  wf_buffer b -> 0 <= row < 16 ->
  exists v, b !! Z.to_nat row = Some v /\ 0 <= v < 256.
Proof.
  intros [Hlen Hall] Hrow.
  destruct (lookup_lt_is_Some_2 b (Z.to_nat row)) as [v Hv]; [lia |].
  exists v. split; [exact Hv |].
  rewrite Forall_forall in Hall. apply Hall.
  eapply list_elem_of_lookup_2. exact Hv.
Qed.

Lemma wf_buffer_insert (b : list Z) (n : nat) (v : Z) :
  wf_buffer b -> 0 <= v < 256 -> wf_buffer (<[n := v]> b).
Proof.
  intros [Hlen Hall] Hv. split.
  - now rewrite length_insert.
  - apply Forall_insert; assumption.
Qed.

(** The values [is_bit] lets through. *)
Lemma is_bit_cases (e : pyval) :
  is_bit e = true ->
  e = PyInt 0 \/ e = PyInt 1 \/ e = PyBool false \/ e = PyBool true.
Proof.
  destruct e as [z | [|] |]; try discriminate; auto.
  unfold is_bit, py_in. simpl.
  destruct (Z.eqb_spec z 0) as [-> | _]; [auto |].
  destruct (Z.eqb_spec z 1) as [-> | _]; [auto | discriminate].
Qed.

Section Cells.

Context {bus E : Type}.
Implicit Types s : device bus E.

Lemma getitem_valid s (row column : Z) :
  wf_buffer (_display_buffer s) -> valid_cell row column ->
  __getitem__ (row, column) s
  = (Return (bit_of (_display_buffer s) row column), s).
Proof.
  intros Hwf [Hr Hc].
  destruct (wf_buffer_lookup _ row Hwf Hr) as (v & Hv & _).
  unfold __getitem__, HT16K33._MEM_ROWS, HT16K33._MEM_COLS, bit_of. run.
  destruct (Z.leb_spec 0 row); [| lia].
  destruct (Z.ltb_spec row 16); [| lia].
  destruct (Z.leb_spec 0 column); [| lia].
  destruct (Z.ltb_spec column 8); [| lia]. simpl.
  rewrite py_index_valid by (destruct Hwf as [-> _]; lia).
  rewrite Hv. simpl. now rewrite shiftr_land_1 by lia.
Qed.

(** A rejected coordinate: the first two assertions of both accessors. *)
Lemma getitem_invalid s (row column : Z) :
  ~ valid_cell row column ->
  __getitem__ (row, column) s = (Raise AssertionError, s).
Proof.
  intros Hn. unfold __getitem__, HT16K33._MEM_ROWS, HT16K33._MEM_COLS. run.
  destruct (Z.leb_spec 0 row); destruct (Z.ltb_spec row 16);
    simpl; try reflexivity.
  destruct (Z.leb_spec 0 column); destruct (Z.ltb_spec column 8);
    simpl; try reflexivity.
  exfalso. apply Hn. unfold valid_cell. lia.
Qed.

Lemma setitem_invalid s (row column : Z) (value : pyval) :
  ~ valid_cell row column ->
  __setitem__ (row, column) value s = (Raise AssertionError, s).
Proof.
  intros Hn. unfold __setitem__, HT16K33._MEM_ROWS, HT16K33._MEM_COLS. run.
  destruct (Z.leb_spec 0 row); destruct (Z.ltb_spec row 16);
    simpl; try reflexivity.
  destruct (Z.leb_spec 0 column); destruct (Z.ltb_spec column 8);
    simpl; try reflexivity.
  exfalso. apply Hn. unfold valid_cell. lia.
Qed.

Lemma bit_of_insert (b : list Z) (row row' column' v : Z) :
  0 <= row < Z.of_nat (length b) -> 0 <= row' ->
  bit_of (<[Z.to_nat row := v]> b) row' column'
  = if row' =? row then Z.b2z (Z.testbit v column')
    else bit_of b row' column'.
Proof.
  intros Hr Hr'. unfold bit_of.
  destruct (Z.eqb_spec row' row) as [-> | Hne].
  - rewrite list_lookup_insert_eq by lia. reflexivity.
  - rewrite list_lookup_insert_ne by lia. reflexivity.
Qed.

Lemma setitem_valid s (row column : Z) (value : pyval) :
  wf_buffer (_display_buffer s) -> valid_cell row column ->
  is_bit value = true ->
  exists b',
    __setitem__ (row, column) value s = (Return tt, Device b' (i2c s) (wire s))
    /\ wf_buffer b'
    /\ forall row' column', valid_cell row' column' ->
         bit_of b' row' column'
         = if (row' =? row) && (column' =? column) then bit_value value
           else bit_of (_display_buffer s) row' column'.
Proof.
  intros Hwf [Hr Hc] Hbit.
  destruct (wf_buffer_lookup _ row Hwf Hr) as (v & Hv & Hbyte).
  assert (Hlen : length (_display_buffer s) = 16%nat) by apply Hwf.
  assert (Hcase : (value = PyInt 0 \/ value = PyBool false)
                  \/ (value = PyInt 1 \/ value = PyBool true)).
  { destruct (is_bit_cases value Hbit) as [-> | [-> | [-> | ->]]]; auto. }
  unfold __setitem__, HT16K33._MEM_ROWS, HT16K33._MEM_COLS. run.
  destruct (Z.leb_spec 0 row); [| lia].
  destruct (Z.ltb_spec row 16); [| lia].
  destruct (Z.leb_spec 0 column); [| lia].
  destruct (Z.ltb_spec column 8); [| lia]. simpl.
  destruct Hcase as [Hz | Ho].
  - (* clear the bit *)
    pose proof (clear_bit_byte v column Hbyte) as Hnew.
    set (v' := Z.land v (Z.land (Z.lnot (Z.shiftl 0x1 column)) 0xFFFF)) in *.
    exists (<[Z.to_nat row := v']> (_display_buffer s)).
    split; [| split].
    + destruct Hz as [-> | ->]; simpl;
        rewrite !py_index_valid by lia; rewrite Hv; simpl;
        fold v'; destruct (Z.leb_spec 0 v'); try lia;
        destruct (Z.ltb_spec v' 256); try lia;
        rewrite ?py_index_valid by lia; reflexivity.
    + now apply wf_buffer_insert.
    + intros row' column' [Hr' Hc'].
      rewrite bit_of_insert by lia.
      assert (Hval : bit_value value = 0)
        by (destruct Hz as [-> | ->]; reflexivity).
      rewrite Hval. destruct (Z.eqb_spec row' row) as [-> | Hne]; simpl.
      * unfold v'. rewrite clear_bit_testbit by lia.
        unfold bit_of. rewrite Hv. simpl.
        rewrite (Z.eqb_sym column column').
        destruct (Z.eqb_spec column' column); simpl.
        -- now rewrite andb_false_r.
        -- now rewrite andb_true_r.
      * reflexivity.
  - (* set the bit *)
    pose proof (set_bit_byte v column Hbyte Hc) as Hnew.
    set (v' := Z.lor v (Z.shiftl 0x1 column)) in *.
    exists (<[Z.to_nat row := v']> (_display_buffer s)).
    split; [| split].
    + destruct Ho as [-> | ->]; simpl;
        rewrite !py_index_valid by lia; rewrite Hv; simpl;
        fold v'; destruct (Z.leb_spec 0 v'); try lia;
        destruct (Z.ltb_spec v' 256); try lia;
        rewrite ?py_index_valid by lia; reflexivity.
    + now apply wf_buffer_insert.
    + intros row' column' [Hr' Hc'].
      rewrite bit_of_insert by lia.
      assert (Hval : bit_value value = 1)
        by (destruct Ho as [-> | ->]; reflexivity).
      rewrite Hval. destruct (Z.eqb_spec row' row) as [-> | Hne]; simpl.
      * unfold v'. rewrite set_bit_testbit by lia.
        unfold bit_of. rewrite Hv. simpl.
        rewrite (Z.eqb_sym column column').
        destruct (Z.eqb_spec column' column); simpl.
        -- now rewrite orb_true_r.
        -- now rewrite orb_false_r.
      * reflexivity.
Qed.

End Cells.

(** ** Bit access: [__getitem__], [__setitem__], [__delitem__] *)

Section Access.

Context {bus E : Type}.
Implicit Types s : device bus E.

(** C1.  On any buffer (sixteen row bytes), for a row in [0,16), a
    column in [0,8) and a bit [b] of {0,1}: [self[row, column] = b]
    returns, reading the same cell afterwards returns [b], and every
    other valid cell reads as it did before. *)
Theorem set_then_get s (row column b : Z) :
  wf_buffer (_display_buffer s) -> valid_cell row column ->
  b = 0 \/ b = 1 ->
  exists s',
    __setitem__ (row, column) (PyInt b) s = (Return tt, s')
    /\ __getitem__ (row, column) s' = (Return b, s')
    /\ forall row' column',
         valid_cell row' column' -> (row', column') <> (row, column) ->
         fst (__getitem__ (row', column') s')
         = fst (__getitem__ (row', column') s).
Proof.
  intros Hwf Hcell Hb.
  assert (Hbit : is_bit (PyInt b) = true)
    by (destruct Hb as [-> | ->]; reflexivity).
  destruct (setitem_valid s row column (PyInt b) Hwf Hcell Hbit)
    as (b' & Hset & Hwf' & Hbits).
  exists (Device b' (i2c s) (wire s)). split; [exact Hset |]. split.
  - rewrite getitem_valid by assumption. simpl.
    rewrite (Hbits row column Hcell), !Z.eqb_refl. simpl.
    destruct Hb as [-> | ->]; reflexivity.
  - intros row' column' Hcell' Hne.
    rewrite !getitem_valid by assumption. simpl.
    rewrite (Hbits row' column' Hcell').
    destruct (Z.eqb_spec row' row) as [-> | _]; [| reflexivity].
    destruct (Z.eqb_spec column' column) as [-> | _]; [| reflexivity].
    congruence.
Qed.

(** C5.  A coordinate with row >= 16 or column >= 8 is rejected by both
    accessors with the assertion failure that signals an out-of-range
    coordinate, whatever value is being stored, and the object is left
    as it was. *)
Theorem out_of_range_rejected s (row column : Z) (value : pyval) :
  row >= 16 \/ column >= 8 ->
  __getitem__ (row, column) s = (Raise AssertionError, s)
  /\ __setitem__ (row, column) value s = (Raise AssertionError, s).
Proof.
  intros Hout.
  assert (Hn : ~ valid_cell row column) by (unfold valid_cell; lia).
  split; [now apply getitem_invalid | now apply setitem_invalid].
Qed.

(** Python's own indexing of the row storage does wrap around: the
    index -1 reads the last row.  Only the assertions of the accessors
    keep a negative row away from it. *)
Lemma buffer_getitem_wraps s (v : Z) :
  length (_display_buffer s) = 16%nat ->
  _display_buffer s !! 15%nat = Some v ->
  buffer_getitem (-1) s = (Return v, s).
Proof.
  intros Hlen Hv. unfold buffer_getitem, list_getitem.
  rewrite Hlen. change (py_index 16 (-1)) with (Some 15%nat).
  cbv beta iota. now rewrite Hv.
Qed.

(** C10.  The range checks are two-sided: a negative row or a negative
    column is rejected by both accessors, by the assertion and so
    before the row storage is indexed (no wraparound from the end of the
    buffer), whatever value is being stored; the object is left as it
    was. *)
Theorem negative_rejected s (row column : Z) (value : pyval) :
  row < 0 \/ column < 0 ->
  __getitem__ (row, column) s = (Raise AssertionError, s)
  /\ __setitem__ (row, column) value s = (Raise AssertionError, s).
Proof.
  intros Hneg.
  assert (Hn : ~ valid_cell row column) by (unfold valid_cell; lia).
  split; [now apply getitem_invalid | now apply setitem_invalid].
Qed.

(** C8.  Deleting a cell, at any coordinate, raises the runtime error
    of the unsupported operation and leaves the object as it was. *)
Theorem delete_unsupported s (key : Z * Z) :
  __delitem__ key s = (Raise (RuntimeError "Cannot delete bits"), s).
Proof. reflexivity. Qed.

End Access.

(** ** Command bytes: [set_brightness], [set_blink_rate] *)

Section Commands.

Context {bus E : Type}.
Variable i2c_write : Z -> bus -> bus * option E.
Variable i2c_register_write_u8 : Z -> Z -> bus -> bus * option E.
Implicit Types s : device bus E.

Lemma write_spec (byte : Z) s :
  write i2c_write i2c_register_write_u8 byte s
  = (surfaced (snd (i2c_write byte (i2c s))), after_write i2c_write byte s).
Proof.
  unfold write, perform, after_write.
  destruct (i2c_write byte (i2c s)) as [h [e |]]; reflexivity.
Qed.

(** C6.  For a level in [0,15], [set_brightness] sends exactly one raw
    byte, 0xE0 OR level (0xE0 for level 0, 0xEF for level 15, and always
    within 0xE0..0xEF); for any other level the assertion fails, nothing
    is sent and the object is left as it was. *)
Theorem brightness_byte s (level : Z) :
  (0 <= level <= 15 ->
     set_brightness i2c_write i2c_register_write_u8 level s
     = (surfaced (snd (i2c_write (Z.lor 0xE0 level) (i2c s))),
        after_write i2c_write (Z.lor 0xE0 level) s)
     /\ 0xE0 <= Z.lor 0xE0 level <= 0xEF)
  /\ (level < 0 \/ level > 15 ->
        set_brightness i2c_write i2c_register_write_u8 level s
        = (Raise AssertionError, s))
  /\ Z.lor 0xE0 0 = 0xE0 /\ Z.lor 0xE0 15 = 0xEF.
Proof.
  split; [| split; [| split; reflexivity]].
  - intros Hl. split.
    + unfold set_brightness, HT16K33._CMD_BRIGHTNESS. run.
      destruct (Z.leb_spec 0 level); [| lia].
      destruct (Z.leb_spec level 15); [| lia]. simpl.
      apply write_spec.
    + assert (Hc : level = 0 \/ level = 1 \/ level = 2 \/ level = 3
                   \/ level = 4 \/ level = 5 \/ level = 6 \/ level = 7
                   \/ level = 8 \/ level = 9 \/ level = 10 \/ level = 11
                   \/ level = 12 \/ level = 13 \/ level = 14 \/ level = 15)
        by lia.
      repeat (destruct Hc as [-> | Hc]; [vm_compute; split; discriminate |]).
      subst level. vm_compute. split; discriminate.
  - intros Hl. unfold set_brightness. run.
    destruct (Z.leb_spec 0 level); destruct (Z.leb_spec level 15);
      simpl; try reflexivity; lia.
Qed.

(** C7.  For each of the four blink modes (OFF = 0, 2HZ = 1, 1HZ = 2,
    HALFHZ = 3), [set_blink_rate] sends exactly one raw byte,
    0x80 OR 0x01 OR (mode << 1), whose display-on bit 0x01 is set; the
    byte of BLINK_1HZ is 0x85.  For any other mode the assertion fails,
    nothing is sent and the object is left as it was. *)
Theorem blink_byte s (mode : Z) :
  (mode = HT16K33.BLINK_OFF \/ mode = HT16K33.BLINK_2HZ
   \/ mode = HT16K33.BLINK_1HZ \/ mode = HT16K33.BLINK_HALFHZ ->
     set_blink_rate i2c_write i2c_register_write_u8 mode s
     = (surfaced
          (snd (i2c_write (Z.lor (Z.lor 0x80 0x01) (Z.shiftl mode 1)) (i2c s))),
        after_write i2c_write (Z.lor (Z.lor 0x80 0x01) (Z.shiftl mode 1)) s)
     /\ Z.testbit (Z.lor (Z.lor 0x80 0x01) (Z.shiftl mode 1)) 0 = true)
  /\ (mode < 0 \/ mode > 3 ->
        set_blink_rate i2c_write i2c_register_write_u8 mode s
        = (Raise AssertionError, s))
  /\ (HT16K33.BLINK_OFF = 0 /\ HT16K33.BLINK_2HZ = 1
      /\ HT16K33.BLINK_1HZ = 2 /\ HT16K33.BLINK_HALFHZ = 3)
  /\ Z.lor (Z.lor 0x80 0x01) (Z.shiftl HT16K33.BLINK_1HZ 1) = 0x85.
Proof.
  split; [| split; [| split; [repeat split | reflexivity]]].
  - intros Hm.
    assert (Hin : existsb (Z.eqb mode)
                    [HT16K33.BLINK_OFF; HT16K33.BLINK_2HZ;
                     HT16K33.BLINK_1HZ; HT16K33.BLINK_HALFHZ] = true).
    { destruct Hm as [-> | [-> | [-> | ->]]]; reflexivity. }
    split.
    + unfold set_blink_rate. run. rewrite Hin. apply write_spec.
    + destruct Hm as [-> | [-> | [-> | ->]]]; reflexivity.
  - intros Hm. unfold set_blink_rate. run.
    unfold HT16K33.BLINK_OFF, HT16K33.BLINK_2HZ, HT16K33.BLINK_1HZ,
      HT16K33.BLINK_HALFHZ. simpl.
    destruct (Z.eqb_spec mode 0); [lia |].
    destruct (Z.eqb_spec mode 1); [lia |].
    destruct (Z.eqb_spec mode 2); [lia |].
    destruct (Z.eqb_spec mode 3); [lia |]. reflexivity.
Qed.

End Commands.

(** ** Loops and sequences of transport calls *)

Section Loops.

Context {bus E : Type}.
Implicit Types s : device bus E.

Lemma for_app {A : Type} (l1 l2 : list A) (body : A -> M unit) s :
  for_ (l1 ++ l2) body s
  = bind (for_ l1 body) (fun _ => for_ l2 body) s.
Proof.
  revert s. induction l1 as [| x l1 IH]; intros s; simpl.
  - reflexivity.
  - unfold bind. destruct (body x s) as [[u | e] s1].
    + rewrite IH. reflexivity.
    + reflexivity.
Qed.

Lemma for_ext {A : Type} (l : list A)
    (f g : A -> M (bus := bus) (E := E) unit) s :
  (forall x s1, f x s1 = g x s1) -> for_ l f s = for_ l g s.
Proof.
  intros Hfg. revert s. induction l as [| x l IH]; intros s; simpl.
  - reflexivity.
  - unfold bind. rewrite Hfg. destruct (g x s) as [[u | e] s1].
    + apply IH.
    + reflexivity.
Qed.

Lemma for_map {A B : Type} (h : A -> B) (l : list A)
    (body : B -> M unit) s :
  for_ (map h l) body s = for_ l (fun x => body (h x)) s.
Proof.
  revert s. induction l as [| x l IH]; intros s; simpl.
  - reflexivity.
  - unfold bind. destruct (body (h x) s) as [[u | e] s1].
    + apply IH.
    + reflexivity.
Qed.

Lemma bind_cong {A B : Type} (m : M A) (k1 k2 : A -> M B) s :
  (forall a s1, m s = (Return a, s1) -> k1 a s1 = k2 a s1) ->
  bind m k1 s = bind m k2 s.
Proof.
  intros Hk. unfold bind. destruct (m s) as [[a | e] s1]; auto.
Qed.

Lemma bind_cong_l {A B : Type} (m1 m2 : M A) (k : A -> M B) s :
  m1 s = m2 s -> bind m1 k s = bind m2 k s.
Proof.
  intros Hm. unfold bind. now rewrite Hm.
Qed.

Lemma bind_ret_tt (m : M unit) s : bind m (fun _ => ret tt) s = m s.
Proof.
  unfold bind, ret. destruct (m s) as [[[] | e] s1]; reflexivity.
Qed.

End Loops.

(** ** Synchronization: [flush] *)

Lemma enumerate_from_calls (start : Z) (l : list Z) :
  map (fun p : Z * Z => RegisterWriteU8 (fst p) (snd p))
      (enumerate_from start l)
  = map (fun k => RegisterWriteU8 (start + Z.of_nat k) (default 0 (l !! k)))
        (seq 0 (length l)).
Proof.
  revert start. induction l as [| x l IH]; intros start.
  - reflexivity.
  - cbn [enumerate_from map length seq fst snd].
    rewrite IH, <- seq_shift, map_map. f_equal.
    + f_equal. lia.
    + apply map_ext. intros k. cbn [lookup list_lookup]. f_equal. lia.
Qed.

Lemma enumerate_calls (l : list Z) :
  map (fun p : Z * Z => RegisterWriteU8 (fst p) (snd p)) (enumerate l)
  = map (fun k => RegisterWriteU8 (Z.of_nat k) (default 0 (l !! k)))
        (seq 0 (length l)).
Proof.
  unfold enumerate. rewrite enumerate_from_calls.
  apply map_ext. intros k. reflexivity.
Qed.

Section Transport.

Context {bus E : Type}.
Variable i2c_write : Z -> bus -> bus * option E.
Variable i2c_register_write_u8 : Z -> Z -> bus -> bus * option E.
Implicit Types s : device bus E.

Local Abbreviation perform_ := (perform i2c_write i2c_register_write_u8).

Lemma perform_spec (c : call) s :
  perform_ c s
  = (surfaced (snd (bus_call i2c_write i2c_register_write_u8 c (i2c s))),
     Device (_display_buffer s)
            (fst (bus_call i2c_write i2c_register_write_u8 c (i2c s)))
            (wire s
             ++ [(c, snd (bus_call i2c_write i2c_register_write_u8 c
                            (i2c s)))])).
Proof.
  unfold perform, bus_call.
  destruct (match c with
            | RawWrite b => i2c_write b (i2c s)
            | RegisterWriteU8 a v => i2c_register_write_u8 a v (i2c s)
            end) as [h [e |]]; reflexivity.
Qed.

Lemma for_perform_buffer (cs : list call) s :
  _display_buffer (snd (for_ cs perform_ s)) = _display_buffer s.
Proof.
  revert s. induction cs as [| c cs IH]; intros s; [reflexivity |].
  cbn [for_]. unfold bind. rewrite perform_spec.
  destruct (snd (bus_call i2c_write i2c_register_write_u8 c (i2c s)))
    as [e |]; cbn [surfaced]; [reflexivity |].
  rewrite IH. reflexivity.
Qed.

(** The loop that makes the calls [cs] is what [puts_on_bus] describes. *)
Lemma for_perform (cs : list call) s :
  puts_on_bus i2c_write i2c_register_write_u8 cs s (for_ cs perform_ s).
Proof.
  revert s. induction cs as [| c cs IH]; intros s.
  - split.
    + intros _. destruct s. cbn. now rewrite app_nil_r.
    + intros k c e Hk. discriminate Hk.
  - cbn [for_]. unfold bind. rewrite perform_spec.
    destruct (snd (bus_call i2c_write i2c_register_write_u8 c (i2c s)))
      as [e0 |] eqn:Hans; cbn [surfaced].
    + split.
      * intros Hall. specialize (Hall 0%nat). cbn [length] in Hall.
        unfold answer_at in Hall. cbn in Hall.
        rewrite Hans in Hall. discriminate Hall. lia.
      * intros k c' e Hk Hbefore Hat. destruct k as [| k].
        -- injection Hk as <-. unfold answer_at in Hat. cbn in Hat.
           rewrite Hans in Hat. injection Hat as <-. reflexivity.
        -- specialize (Hbefore 0%nat). unfold answer_at in Hbefore.
           cbn in Hbefore. rewrite Hans in Hbefore.
           discriminate Hbefore. lia.
    + destruct (IH (Device (_display_buffer s)
                      (fst (bus_call i2c_write i2c_register_write_u8 c (i2c s)))
                      (wire s ++ [(c, None)]))) as [IHok IHfail].
      cbn [_display_buffer i2c wire] in IHok, IHfail. split.
      * intros Hall. rewrite IHok.
        -- rewrite <- app_assoc. reflexivity.
        -- intros j Hj. specialize (Hall (S j)). cbn [length] in Hall.
           apply Hall. lia.
      * intros k c' e Hk Hbefore Hat. destruct k as [| k].
        -- unfold answer_at in Hat. cbn in Hat.
           rewrite Hans in Hat. discriminate Hat.
        -- rewrite (IHfail k c' e).
           ++ rewrite <- app_assoc. reflexivity.
           ++ exact Hk.
           ++ intros j Hj. apply (Hbefore (S j)). lia.
           ++ exact Hat.
Qed.

Lemma flush_as_calls s :
  length (_display_buffer s) = 16%nat ->
  flush i2c_write i2c_register_write_u8 s
  = for_ (row_writes (_display_buffer s)) perform_ s.
Proof.
  intros Hlen. unfold flush, row_writes.
  rewrite <- Hlen.
  rewrite <- (enumerate_calls (_display_buffer s)), for_map.
  apply for_ext. intros [a v] s1. reflexivity.
Qed.

(** C2.  On a buffer of sixteen rows, [flush] makes on the bus the
    register writes of addresses 0 to 15, in ascending order, each with
    the row byte the buffer held when [flush] was called.  If the bus
    answers all sixteen, [flush] returns and the bus has received exactly
    these sixteen writes.  If the write numbered [k] is the first the bus
    raises on, [flush] raises the transport's exception; the bus has
    received the writes 0 to [k] and no write with a higher address.  The
    buffer is the same afterwards in both cases. *)
Theorem flush_writes s :
  length (_display_buffer s) = 16%nat ->
  puts_on_bus i2c_write i2c_register_write_u8
    (row_writes (_display_buffer s)) s
    (flush i2c_write i2c_register_write_u8 s)
  /\ length (row_writes (_display_buffer s)) = 16%nat
  /\ (forall k : nat, (k < 16)%nat ->
        row_writes (_display_buffer s) !! k
        = Some (RegisterWriteU8 (Z.of_nat k)
                  (default 0 (_display_buffer s !! k))))
  /\ _display_buffer (snd (flush i2c_write i2c_register_write_u8 s))
     = _display_buffer s.
Proof.
  intros Hlen. split; [| split; [| split]].
  - rewrite flush_as_calls by exact Hlen. apply for_perform.
  - reflexivity.
  - intros k Hk. unfold row_writes.
    rewrite list_lookup_fmap, lookup_seq_lt by exact Hk. reflexivity.
  - rewrite flush_as_calls by exact Hlen. apply for_perform_buffer.
Qed.

End Transport.

(** ** Construction *)

Section Construction.

Context {bus E : Type}.
Variable i2c_write : Z -> bus -> bus * option E.
Variable i2c_register_write_u8 : Z -> Z -> bus -> bus * option E.

Local Abbreviation perform_ := (perform i2c_write i2c_register_write_u8).

Lemma perform_buffer (c : call) (s : device bus E) :
  _display_buffer (snd (perform_ c s)) = _display_buffer s.
Proof.
  unfold perform.
  destruct (match c with
            | RawWrite b => i2c_write b (i2c s)
            | RegisterWriteU8 a v => i2c_register_write_u8 a v (i2c s)
            end) as [h [e |]]; reflexivity.
Qed.

Lemma init_as_calls (h : bus) :
  __init__ i2c_write i2c_register_write_u8 h
  = for_ init_calls perform_ (Device (repeat 0 16%nat) h []).
Proof.
  unfold __init__, init_calls.
  change (Z.to_nat HT16K33._MEM_ROWS) with 16%nat.
  cbn [app for_]. apply bind_cong. intros u s1 H1.
  assert (Hb : _display_buffer s1 = repeat 0 16%nat).
  { pose proof (perform_buffer (RawWrite 0x21) (Device (repeat 0 16%nat) h []))
      as Hb.
    unfold write in H1.
    change (Z.lor HT16K33._CMD_SYSTEM_SETUP HT16K33._SYSTEM_OSCILLATOR_ON)
      with 0x21 in H1.
    rewrite H1 in Hb. exact Hb. }
  rewrite for_app, <- Hb.
  rewrite (bind_cong_l _ (for_ (row_writes (_display_buffer s1)) perform_))
    by (apply flush_as_calls; rewrite Hb; reflexivity).
  apply bind_cong. intros u' s2 _.
  cbn [for_]. apply bind_cong. intros u'' s3 _.
  symmetry. apply bind_ret_tt.
Qed.

(** C9.  Construction starts from the zeroed sixteen-row buffer and
    makes on the bus, in this order: the system setup command with the
    oscillator on (0x20 OR 0x01), the sixteen register writes of a flush
    of the zeroed buffer (addresses 0 to 15, value 0x00), the blink
    command for OFF, the brightness command for 15.  If the bus answers
    all nineteen calls, construction returns and the bus has received
    exactly these.  If the call numbered [k] is the first the bus raises
    on, the transport's exception surfaces from the constructor; the bus
    has received the calls up to that one and no later call.  The buffer
    is all zeroes either way. *)
Theorem init_sequence (h : bus) :
  puts_on_bus i2c_write i2c_register_write_u8
    init_calls (Device (repeat 0 16%nat) h [])
    (__init__ i2c_write i2c_register_write_u8 h)
  /\ _display_buffer (snd (__init__ i2c_write i2c_register_write_u8 h))
     = [0; 0; 0; 0; 0; 0; 0; 0; 0; 0; 0; 0; 0; 0; 0; 0]
  /\ init_calls
     = [RawWrite (Z.lor 0x20 0x01);
        RegisterWriteU8 0 0; RegisterWriteU8 1 0; RegisterWriteU8 2 0;
        RegisterWriteU8 3 0; RegisterWriteU8 4 0; RegisterWriteU8 5 0;
        RegisterWriteU8 6 0; RegisterWriteU8 7 0; RegisterWriteU8 8 0;
        RegisterWriteU8 9 0; RegisterWriteU8 10 0; RegisterWriteU8 11 0;
        RegisterWriteU8 12 0; RegisterWriteU8 13 0; RegisterWriteU8 14 0;
        RegisterWriteU8 15 0;
        RawWrite (Z.lor (Z.lor 0x80 0x01) (Z.shiftl HT16K33.BLINK_OFF 1));
        RawWrite (Z.lor 0xE0 15)].
Proof.
  split; [| split; [| reflexivity]].
  - rewrite init_as_calls. apply for_perform.
  - rewrite init_as_calls.
    apply (for_perform_buffer i2c_write i2c_register_write_u8 init_calls
             (Device (repeat 0 16%nat) h [])).
Qed.

End Construction.

(** ** Bulk load: [write_bitmap] *)

Lemma range_succ (n : nat) :
  range (Z.of_nat (S n)) = range (Z.of_nat n) ++ [Z.of_nat n].
Proof.
  unfold range. rewrite !Nat2Z.id, seq_S, map_app. reflexivity.
Qed.

Lemma is_bit_as_bit (e : pyval) :
  is_bit e = true -> bit_value e = as_bit e.
Proof.
  destruct e as [z | [|] |]; try reflexivity; try discriminate.
  unfold is_bit, py_in, bit_value. simpl.
  destruct (Z.eqb_spec z 0) as [-> | _]; [reflexivity |].
  destruct (Z.eqb_spec z 1) as [-> | _]; [reflexivity | discriminate].
Qed.

Section Bitmap.

Context {bus E : Type}.
Implicit Types s : device bus E.

Lemma write_bitmap_unfold (bitmap : list (list pyval)) :
  write_bitmap (bus := bus) (E := E) bitmap
  = bind (assert (Z.of_nat (length bitmap) =? HT16K33._MEM_ROWS)) (fun _ =>
    bind (for_ bitmap check_row) (fun _ =>
    for_ (range HT16K33._MEM_ROWS) (copy_row bitmap))).
Proof. reflexivity. Qed.

Lemma check_row_spec (row : list pyval) s :
  check_row row s
  = (if good_row row then Return tt else Raise AssertionError, s).
Proof.
  unfold check_row, good_row. run.
  destruct (Z.of_nat (length row) =? HT16K33._MEM_COLS); simpl;
    [| reflexivity].
  destruct (forallb is_bit row); reflexivity.
Qed.

Lemma check_rows_spec (bitmap : list (list pyval)) s :
  for_ bitmap check_row s
  = (if forallb good_row bitmap then Return tt else Raise AssertionError, s).
Proof.
  induction bitmap as [| row bitmap IH]; [reflexivity |].
  cbn [for_ forallb]. unfold bind. rewrite check_row_spec.
  destruct (good_row row); [exact IH | reflexivity].
Qed.

Lemma list_getitem_valid {A : Type} (l : list A) (i : Z) (x : A) s :
  0 <= i -> l !! Z.to_nat i = Some x ->
  list_getitem l i s = (Return x, s).
Proof.
  intros Hi Hx. unfold list_getitem.
  pose proof (lookup_lt_Some _ _ _ Hx) as Hlt.
  rewrite py_index_valid by lia. now rewrite Hx.
Qed.

Lemma copy_cell_spec (bitmap : list (list pyval)) (row column : Z)
    (e : pyval) s :
  0 <= row -> 0 <= column ->
  bitmap_cell bitmap row column = Some e ->
  copy_cell bitmap row column s = __setitem__ (row, column) e s.
Proof.
  intros Hr Hc Hcell. unfold bitmap_cell in Hcell.
  destruct (bitmap !! Z.to_nat row) as [r |] eqn:Hrow; [| discriminate].
  unfold copy_cell, bind.
  rewrite (list_getitem_valid bitmap row r s Hr Hrow).
  rewrite (list_getitem_valid r column e s Hc Hcell). reflexivity.
Qed.

Lemma bit_matrix_good (bitmap : list (list pyval)) :
  bit_matrix bitmap -> forallb good_row bitmap = true.
Proof.
  intros [_ Hrows]. apply forallb_forall. intros row Hin.
  destruct (Hrows row Hin) as [Hlen Hbits]. unfold good_row.
  rewrite Hlen. simpl. apply forallb_forall. intros e He.
  destruct (Hbits e He) as [-> | [-> | [-> | ->]]]; reflexivity.
Qed.

Lemma bit_matrix_cell (bitmap : list (list pyval)) (row column : Z) :
  bit_matrix bitmap -> valid_cell row column ->
  exists e, bitmap_cell bitmap row column = Some e /\ is_bit e = true.
Proof.
  intros [Hlen Hrows] [Hr Hc]. unfold bitmap_cell.
  destruct (lookup_lt_is_Some_2 bitmap (Z.to_nat row)) as [r Hrow]; [lia |].
  rewrite Hrow.
  assert (Hin : In r bitmap).
  { apply list_elem_of_In. eapply list_elem_of_lookup_2. exact Hrow. }
  destruct (Hrows r Hin) as [Hlen8 Hbits].
  destruct (lookup_lt_is_Some_2 r (Z.to_nat column)) as [e He]; [lia |].
  exists e. split; [exact He |].
  assert (Hine : In e r).
  { apply list_elem_of_In. eapply list_elem_of_lookup_2. exact He. }
  destruct (Hbits e Hine) as [-> | [-> | [-> | ->]]]; reflexivity.
Qed.

(** After the first [n] iterations of the inner loop on [row]. *)
Lemma copy_row_prefix (bitmap : list (list pyval)) (row : Z) (n : nat) s :
  bit_matrix bitmap -> wf_buffer (_display_buffer s) ->
  0 <= row < 16 -> (n <= 8)%nat ->
  exists b',
    for_ (range (Z.of_nat n)) (copy_cell bitmap row) s
    = (Return tt, Device b' (i2c s) (wire s))
    /\ wf_buffer b'
    /\ forall row' column', valid_cell row' column' ->
         forall e, bitmap_cell bitmap row' column' = Some e ->
         bit_of b' row' column'
         = if (row' =? row) && (column' <? Z.of_nat n) then bit_value e
           else bit_of (_display_buffer s) row' column'.
Proof.
  intros Hm Hwf Hr. induction n as [| n IH]; intros Hn.
  - exists (_display_buffer s). split; [destruct s; reflexivity |].
    split; [exact Hwf |]. intros row' column' [_ Hc'] e _.
    destruct (Z.ltb_spec column' (Z.of_nat 0)); [lia |].
    now rewrite andb_false_r.
  - destruct IH as (b1 & Hrun & Hwf1 & Hbits1); [lia |].
    assert (Hcell : valid_cell row (Z.of_nat n)) by (unfold valid_cell; lia).
    destruct (bit_matrix_cell bitmap row (Z.of_nat n) Hm Hcell)
      as (e0 & He0 & Hbit0).
    destruct (setitem_valid (Device b1 (i2c s) (wire s)) row (Z.of_nat n) e0
                Hwf1 Hcell Hbit0) as (b2 & Hset & Hwf2 & Hbits2).
    exists b2. split; [| split; [exact Hwf2 |]].
    + rewrite range_succ, for_app. unfold bind at 1. rewrite Hrun.
      cbn [for_]. rewrite bind_ret_tt.
      rewrite (copy_cell_spec bitmap row (Z.of_nat n) e0)
        by (assumption || lia).
      exact Hset.
    + intros row' column' Hcell' e He.
      rewrite (Hbits2 row' column' Hcell'). simpl.
      rewrite (Hbits1 row' column' Hcell' e He).
      destruct (Z.eqb_spec row' row) as [-> | _]; simpl; [| reflexivity].
      destruct (Z.eqb_spec column' (Z.of_nat n)) as [-> | Hne].
      * destruct (Z.ltb_spec (Z.of_nat n) (Z.of_nat (S n))); [| lia].
        congruence.
      * destruct (Z.ltb_spec column' (Z.of_nat n));
          destruct (Z.ltb_spec column' (Z.of_nat (S n)));
          try reflexivity; lia.
Qed.

(** After the first [n] iterations of the outer loop. *)
Lemma copy_rows_prefix (bitmap : list (list pyval)) (n : nat) s :
  bit_matrix bitmap -> wf_buffer (_display_buffer s) -> (n <= 16)%nat ->
  exists b',
    for_ (range (Z.of_nat n)) (copy_row bitmap) s
    = (Return tt, Device b' (i2c s) (wire s))
    /\ wf_buffer b'
    /\ forall row' column', valid_cell row' column' ->
         forall e, bitmap_cell bitmap row' column' = Some e ->
         bit_of b' row' column'
         = if row' <? Z.of_nat n then bit_value e
           else bit_of (_display_buffer s) row' column'.
Proof.
  intros Hm Hwf. induction n as [| n IH]; intros Hn.
  - exists (_display_buffer s). split; [destruct s; reflexivity |].
    split; [exact Hwf |]. intros row' column' [Hr' _] e _.
    destruct (Z.ltb_spec row' (Z.of_nat 0)); [lia | reflexivity].
  - destruct IH as (b1 & Hrun & Hwf1 & Hbits1); [lia |].
    destruct (copy_row_prefix bitmap (Z.of_nat n) 8
                (Device b1 (i2c s) (wire s)) Hm Hwf1)
      as (b2 & Hrow & Hwf2 & Hbits2); [lia | lia |].
    exists b2. split; [| split; [exact Hwf2 |]].
    + rewrite range_succ, for_app. unfold bind at 1. rewrite Hrun.
      cbn [for_]. rewrite bind_ret_tt. exact Hrow.
    + intros row' column' Hcell' e He.
      rewrite (Hbits2 row' column' Hcell' e He). simpl.
      rewrite (Hbits1 row' column' Hcell' e He).
      destruct Hcell' as [Hr' Hc'].
      destruct (Z.ltb_spec column' (Z.of_nat 8)); [| lia].
      rewrite andb_true_r.
      destruct (Z.eqb_spec row' (Z.of_nat n)) as [-> | Hne].
      * destruct (Z.ltb_spec (Z.of_nat n) (Z.of_nat (S n))); [| lia].
        reflexivity.
      * destruct (Z.ltb_spec row' (Z.of_nat n));
          destruct (Z.ltb_spec row' (Z.of_nat (S n)));
          try reflexivity; lia.
Qed.

(** C3.  Round trip: for a 16 x 8 matrix whose cells are all among 0,
    1, False and True, loaded into any buffer, [write_bitmap] returns,
    the bus is not touched, and reading any cell of the grid afterwards
    returns the matrix cell at that place, True and False being read
    back as 1 and 0. *)
Theorem write_bitmap_round_trip (bitmap : list (list pyval)) s :
  wf_buffer (_display_buffer s) -> bit_matrix bitmap ->
  exists s',
    write_bitmap bitmap s = (Return tt, s')
    /\ i2c s' = i2c s /\ wire s' = wire s
    /\ forall row column, valid_cell row column ->
         exists e,
           bitmap_cell bitmap row column = Some e
           /\ __getitem__ (row, column) s' = (Return (as_bit e), s').
Proof.
  intros Hwf Hm.
  destruct (copy_rows_prefix bitmap 16 s Hm Hwf) as (b' & Hrun & Hwf' & Hbits);
    [lia |].
  exists (Device b' (i2c s) (wire s)).
  split; [| split; [reflexivity | split; [reflexivity |]]].
  - rewrite write_bitmap_unfold. unfold bind at 1.
    destruct Hm as [Hlen Hrows]. rewrite Hlen. cbn [assert Z.eqb].
    assert (Hgood : forallb good_row bitmap = true)
      by (apply bit_matrix_good; split; assumption).
    change (assert (Z.of_nat 16 =? HT16K33._MEM_ROWS) s)
      with (Return (E := E) tt, s).
    cbv beta iota. unfold bind at 1.
    rewrite check_rows_spec, Hgood. exact Hrun.
  - intros row column Hcell.
    destruct (bit_matrix_cell bitmap row column Hm Hcell) as (e & He & Hbit).
    exists e. split; [exact He |].
    rewrite getitem_valid by assumption. simpl.
    rewrite (Hbits row column Hcell e He).
    destruct Hcell as [Hr Hc].
    destruct (Z.ltb_spec row (Z.of_nat 16)); [| lia].
    now rewrite is_bit_as_bit.
Qed.

(** C4.  A matrix that does not have sixteen rows, or has a row that
    does not have eight cells, or holds a cell that is not a valid bit,
    is rejected by the consistency check of [write_bitmap]: the
    assertion fails before any cell is copied, and the object is left
    as it was. *)
Theorem write_bitmap_rejects (bitmap : list (list pyval)) s :
  length bitmap <> 16%nat
  \/ (exists row, In row bitmap /\ length row <> 8%nat)
  \/ (exists row e, In row bitmap /\ In e row /\ is_bit e = false) ->
  write_bitmap bitmap s = (Raise AssertionError, s).
Proof.
  intros Hbad. rewrite write_bitmap_unfold. unfold bind at 1.
  unfold assert at 1.
  destruct (Z.eqb_spec (Z.of_nat (length bitmap)) HT16K33._MEM_ROWS)
    as [Hlen | Hlen]; [| reflexivity].
  cbv beta iota. unfold ret at 1. unfold bind at 1.
  rewrite check_rows_spec.
  assert (Hgood : forallb good_row bitmap = false).
  { destruct Hbad as [Hn | [(row & Hin & Hn) | (row & e & Hin & He & Hn)]].
    - exfalso. apply Hn. unfold HT16K33._MEM_ROWS in Hlen. lia.
    - apply not_true_is_false. intros Hall.
      rewrite forallb_forall in Hall. specialize (Hall row Hin).
      unfold good_row, HT16K33._MEM_COLS in Hall.
      apply andb_true_iff in Hall. destruct Hall as [Hl _].
      apply Z.eqb_eq in Hl. lia.
    - apply not_true_is_false. intros Hall.
      rewrite forallb_forall in Hall. specialize (Hall row Hin).
      unfold good_row in Hall.
      apply andb_true_iff in Hall. destruct Hall as [_ Hb].
      rewrite forallb_forall in Hb. specialize (Hb e He). congruence. }
  rewrite Hgood. reflexivity.
Qed.

End Bitmap.

(** ** The properties at work on the counting bus *)

Lemma demo_wf : wf_buffer (_display_buffer demo).
Proof.
  split; [reflexivity |]. simpl.
  repeat (constructor; [lia |]). constructor.
Defined.

Lemma bit_matrix_check (bitmap : list (list pyval)) :
  Nat.eqb (length bitmap) 16 && forallb good_row bitmap = true ->
  bit_matrix bitmap.
Proof.
  intros H. apply andb_true_iff in H. destruct H as [Hlen Hrows].
  split; [now apply Nat.eqb_eq |].
  intros row Hin. rewrite forallb_forall in Hrows.
  specialize (Hrows row Hin). unfold good_row in Hrows.
  apply andb_true_iff in Hrows. destruct Hrows as [Hl Hb].
  split.
  - apply Z.eqb_eq in Hl. unfold HT16K33._MEM_COLS in Hl. lia.
  - intros e He. rewrite forallb_forall in Hb. apply is_bit_cases. auto.
Defined.

Lemma set_then_get_witness :
  exists s',
    __setitem__ (3, 5) (PyInt 0) demo = (Return tt, s')
    /\ __getitem__ (3, 5) s' = (Return 0, s')
    /\ forall row' column',
         valid_cell row' column' -> (row', column') <> (3, 5) ->
         fst (__getitem__ (row', column') s')
         = fst (__getitem__ (row', column') demo).
Proof.
  apply (set_then_get demo 3 5 0).
  - exact demo_wf.
  - unfold valid_cell. lia.
  - left. reflexivity.
Defined.

Lemma out_of_range_rejected_witness :
  __getitem__ (16, 0) demo = (Raise AssertionError, demo)
  /\ __setitem__ (16, 0) (PyInt 1) demo = (Raise AssertionError, demo).
Proof.
  apply (out_of_range_rejected demo 16 0 (PyInt 1)). left. lia.
Defined.

Lemma negative_rejected_witness :
  __getitem__ (-1, 3) demo = (Raise AssertionError, demo)
  /\ __setitem__ (-1, 3) (PyInt 1) demo = (Raise AssertionError, demo).
Proof.
  apply (negative_rejected demo (-1) 3 (PyInt 1)). left. lia.
Defined.

Lemma flush_writes_witness :
  flush (flaky_write 4) (flaky_register_write_u8 4) demo
  = (Raise (TransportError 5%nat),
     Device (_display_buffer demo) 5%nat
       [(RegisterWriteU8 0 0xFF, None); (RegisterWriteU8 1 0x00, None);
        (RegisterWriteU8 2 0x81, None); (RegisterWriteU8 3 0x20, None);
        (RegisterWriteU8 4 0x00, Some 5%nat)])
  /\ flush (flaky_write 99) (flaky_register_write_u8 99) demo
     = (Return tt,
        Device (_display_buffer demo) 16%nat
          (map answered (row_writes (_display_buffer demo)))).
Proof.
  split.
  - destruct (flush_writes (flaky_write 4) (flaky_register_write_u8 4) demo)
      as [[_ Hraise] _]; [reflexivity |].
    apply (Hraise 4%nat (RegisterWriteU8 4 0x00) 5%nat).
    + reflexivity.
    + intros j Hj. do 4 (destruct j as [| j]; [reflexivity |]). lia.
    + reflexivity.
  - destruct (flush_writes (flaky_write 99) (flaky_register_write_u8 99) demo)
      as [[Hreturn _] _]; [reflexivity |].
    apply Hreturn. intros j Hj.
    do 16 (destruct j as [| j]; [reflexivity |]). simpl in Hj. lia.
Defined.

Lemma init_sequence_witness :
  __init__ (flaky_write 17) (flaky_register_write_u8 17) 0%nat
  = (Raise (TransportError 5%nat),
     Device (repeat 0 16%nat) 18%nat
       (map answered (take 17 init_calls) ++ [(RawWrite 0x81, Some 5%nat)]))
  /\ __init__ (flaky_write 99) (flaky_register_write_u8 99) 0%nat
     = (Return tt,
        Device (repeat 0 16%nat) 19%nat (map answered init_calls)).
Proof.
  split.
  - destruct (init_sequence (flaky_write 17) (flaky_register_write_u8 17)
                0%nat) as [[_ Hraise] _].
    apply (Hraise 17%nat (RawWrite 0x81) 5%nat).
    + reflexivity.
    + intros j Hj. do 17 (destruct j as [| j]; [reflexivity |]). lia.
    + reflexivity.
  - destruct (init_sequence (flaky_write 99) (flaky_register_write_u8 99)
                0%nat) as [[Hreturn _] _].
    apply Hreturn. intros j Hj.
    do 19 (destruct j as [| j]; [reflexivity |]). simpl in Hj. lia.
Defined.

Lemma write_bitmap_round_trip_witness :
  exists s',
    write_bitmap chequer demo = (Return tt, s')
    /\ __getitem__ (3, 1) s' = (Return 1, s')
    /\ __getitem__ (4, 1) s' = (Return 0, s').
Proof.
  assert (Hm : bit_matrix chequer) by (apply bit_matrix_check; reflexivity).
  destruct (write_bitmap_round_trip chequer demo demo_wf Hm)
    as (s' & Hrun & _ & _ & Hcells).
  exists s'. split; [exact Hrun |]. split.
  - destruct (Hcells 3 1) as (e & He & Hget); [unfold valid_cell; lia |].
    vm_compute in He. injection He as <-. exact Hget.
  - destruct (Hcells 4 1) as (e & He & Hget); [unfold valid_cell; lia |].
    vm_compute in He. injection He as <-. exact Hget.
Defined.

Lemma write_bitmap_rejects_witness :
  write_bitmap (take 15 chequer) demo = (Raise AssertionError, demo)
  /\ write_bitmap (map (take 7) chequer) demo = (Raise AssertionError, demo)
  /\ write_bitmap (<[2%nat := repeat (PyInt 2) 8]> chequer) demo
     = (Raise AssertionError, demo).
Proof.
  split; [| split].
  - apply (write_bitmap_rejects (take 15 chequer) demo).
    left. simpl. lia.
  - apply (write_bitmap_rejects (map (take 7) chequer) demo).
    right. left. exists (take 7 (chequer_row false)).
    split; [left; reflexivity | simpl; lia].
  - apply (write_bitmap_rejects (<[2%nat := repeat (PyInt 2) 8]> chequer) demo).
    right. right. exists (repeat (PyInt 2) 8), (PyInt 2).
    split; [right; right; left; reflexivity |].
    split; [left; reflexivity | reflexivity].
Defined.

Lemma brightness_byte_witness :
  set_brightness (flaky_write 9) (flaky_register_write_u8 9) 15 demo
  = (Return tt, Device (_display_buffer demo) 1%nat [(RawWrite 0xEF, None)])
  /\ set_brightness (flaky_write 9) (flaky_register_write_u8 9) 16 demo
     = (Raise AssertionError, demo)
  /\ set_brightness (flaky_write 9) (flaky_register_write_u8 9) (-1) demo
     = (Raise AssertionError, demo).
Proof.
  split; [| split].
  - destruct (brightness_byte (flaky_write 9) (flaky_register_write_u8 9)
                demo 15) as [Hok _].
    destruct Hok as [Hrun _]; [lia |]. exact Hrun.
  - destruct (brightness_byte (flaky_write 9) (flaky_register_write_u8 9)
                demo 16) as (_ & Hbad & _).
    apply Hbad. right. lia.
  - destruct (brightness_byte (flaky_write 9) (flaky_register_write_u8 9)
                demo (-1)) as (_ & Hbad & _).
    apply Hbad. left. lia.
Defined.

Lemma blink_byte_witness :
  set_blink_rate (flaky_write 9) (flaky_register_write_u8 9)
    HT16K33.BLINK_1HZ demo
  = (Return tt, Device (_display_buffer demo) 1%nat [(RawWrite 0x85, None)])
  /\ set_blink_rate (flaky_write 9) (flaky_register_write_u8 9) 4 demo
     = (Raise AssertionError, demo).
Proof.
  split.
  - destruct (blink_byte (flaky_write 9) (flaky_register_write_u8 9)
                demo HT16K33.BLINK_1HZ) as [Hok _].
    destruct Hok as [Hrun _]; [right; right; left; reflexivity |].
    exact Hrun.
  - destruct (blink_byte (flaky_write 9) (flaky_register_write_u8 9)
                demo 4) as (_ & Hbad & _).
    apply Hbad. right. lia.
Defined.

(** The fifth register write raises: five calls on record, the buffer
    intact, the error of the bus in the caller's hands. *)
Example flush_fifth_write_raises :
  flush (flaky_write 4) (flaky_register_write_u8 4) demo
  = (Raise (TransportError 5%nat),
     Device (_display_buffer demo) 5%nat
       [(RegisterWriteU8 0 0xFF, None); (RegisterWriteU8 1 0x00, None);
        (RegisterWriteU8 2 0x81, None); (RegisterWriteU8 3 0x20, None);
        (RegisterWriteU8 4 0x00, Some 5%nat)]).
Proof. reflexivity. Qed.

(** On a bus that answers everything, construction makes its nineteen
    calls and returns. *)
Example init_on_sound_bus :
  __init__ (flaky_write 99) (flaky_register_write_u8 99) 0%nat
  = (Return tt,
     Device (repeat 0 16%nat) 19%nat (map answered init_calls)).
Proof. reflexivity. Qed.

(** The blink command raises: brightness is never sent. *)
Example init_blink_raises :
  __init__ (flaky_write 17) (flaky_register_write_u8 17) 0%nat
  = (Raise (TransportError 5%nat),
     Device (repeat 0 16%nat) 18%nat
       (map answered (take 17 init_calls) ++ [(RawWrite 0x81, Some 5%nat)])).
Proof. reflexivity. Qed.

(** Python accepts [True] where 1 is meant, and so does the accessor. *)
Example set_true_reads_one :
  bind (__setitem__ (1, 6) (PyBool true)) (fun _ => __getitem__ (1, 6)) demo
  = (Return 1,
     Device (<[1%nat := 0x40]> (_display_buffer demo)) 0%nat []).
Proof. reflexivity. Qed.

(** * Further properties of the class *)

(** ** Buffers are determined by their cells *)

Lemma buffer_ext (b1 b2 : list Z) :
  wf_buffer b1 -> wf_buffer b2 ->
  (forall row column, valid_cell row column ->
     bit_of b1 row column = bit_of b2 row column) ->
  b1 = b2.
Proof.
  intros Hwf1 Hwf2 Hbits. apply list_eq. intros k.
  destruct (decide (k < 16)%nat) as [Hk | Hk].
  - destruct (wf_buffer_lookup b1 (Z.of_nat k) Hwf1) as (v1 & Hv1 & Hr1);
      [lia |].
    destruct (wf_buffer_lookup b2 (Z.of_nat k) Hwf2) as (v2 & Hv2 & Hr2);
      [lia |].
    rewrite Nat2Z.id in Hv1, Hv2. rewrite Hv1, Hv2. f_equal.
    apply Z.bits_inj'. intros n Hn.
    destruct (Z.lt_ge_cases n 8) as [Hlt | Hge].
    + assert (Hcell : valid_cell (Z.of_nat k) n) by (unfold valid_cell; lia).
      specialize (Hbits (Z.of_nat k) n Hcell). unfold bit_of in Hbits.
      rewrite Nat2Z.id, Hv1, Hv2 in Hbits. simpl in Hbits.
      now apply Z.b2z_inj.
    + now rewrite (byte_high_bits v1 Hr1 n Hge), (byte_high_bits v2 Hr2 n Hge).
  - destruct Hwf1 as [Hl1 _], Hwf2 as [Hl2 _].
    rewrite !lookup_ge_None_2 by lia. reflexivity.
Qed.

Lemma bit_of_bit (b : list Z) (row column : Z) :
  bit_of b row column = 0 \/ bit_of b row column = 1.
Proof.
  unfold bit_of. destruct (Z.testbit _ _); auto.
Qed.

Lemma bit_value_as_bit (v : pyval) :
  is_bit v = true -> as_bit v = bit_value v.
Proof. intros Hv. symmetry. now apply is_bit_as_bit. Qed.

Section MoreCells.

Context {bus E : Type}.
Implicit Types s : device bus E.

Lemma device_eta s : Device (_display_buffer s) (i2c s) (wire s) = s.
Proof. destruct s. reflexivity. Qed.

(** A value that is not a bit fails the third assertion. *)
Lemma setitem_not_bit s (row column : Z) (value : pyval) :
  is_bit value = false ->
  __setitem__ (row, column) value s = (Raise AssertionError, s).
Proof.
  intros Hbit. unfold __setitem__. run.
  destruct ((0 <=? row) && (row <? HT16K33._MEM_ROWS)); [| reflexivity].
  destruct ((0 <=? column) && (column <? HT16K33._MEM_COLS)); [| reflexivity].
  cbv beta iota.
  destruct value as [z | [|] |]; try discriminate Hbit; [| reflexivity].
  unfold is_bit, py_in in Hbit. simpl in Hbit. unfold py_in. simpl.
  destruct (z =? 0); [discriminate |]. destruct (z =? 1); [discriminate |].
  reflexivity.
Qed.

(** Two stores in a row, told by the cells of the buffer they leave. *)
Lemma setitem_twice s (k1 k2 : Z * Z) (v1 v2 : pyval) :
  wf_buffer (_display_buffer s) ->
  valid_cell (fst k1) (snd k1) -> valid_cell (fst k2) (snd k2) ->
  is_bit v1 = true -> is_bit v2 = true ->
  exists b',
    bind (__setitem__ k1 v1) (fun _ => __setitem__ k2 v2) s
    = (Return tt, Device b' (i2c s) (wire s))
    /\ wf_buffer b'
    /\ forall row column, valid_cell row column ->
         bit_of b' row column
         = if (row =? fst k2) && (column =? snd k2) then bit_value v2
           else if (row =? fst k1) && (column =? snd k1) then bit_value v1
           else bit_of (_display_buffer s) row column.
Proof.
  destruct k1 as [r1 c1], k2 as [r2 c2]. cbn [fst snd].
  intros Hwf Hk1 Hk2 Hv1 Hv2.
  destruct (setitem_valid s r1 c1 v1 Hwf Hk1 Hv1) as (b1 & Hs1 & Hwf1 & Hb1).
  destruct (setitem_valid (Device b1 (i2c s) (wire s)) r2 c2 v2 Hwf1 Hk2 Hv2)
    as (b2 & Hs2 & Hwf2 & Hb2).
  exists b2. split; [| split; [exact Hwf2 |]].
  - unfold bind. rewrite Hs1. exact Hs2.
  - intros row column Hcell. rewrite (Hb2 row column Hcell). simpl.
    now rewrite (Hb1 row column Hcell).
Qed.

(** X1.  At a valid cell of a sixteen-byte buffer, [__setitem__] accepts
    exactly the values [is_bit] accepts: for such a value it returns and
    the cell then reads as the value taken as an integer; for any other
    value the assertion fails and the object is left as it was. *)
Theorem setitem_accepts_bits s (row column : Z) (value : pyval) :
  wf_buffer (_display_buffer s) -> valid_cell row column ->
  (is_bit value = true ->
     exists s',
       __setitem__ (row, column) value s = (Return tt, s')
       /\ __getitem__ (row, column) s' = (Return (as_bit value), s'))
  /\ (is_bit value = false ->
        __setitem__ (row, column) value s = (Raise AssertionError, s)).
Proof.
  intros Hwf Hcell. split.
  - intros Hbit.
    destruct (setitem_valid s row column value Hwf Hcell Hbit)
      as (b' & Hset & Hwf' & Hbits).
    exists (Device b' (i2c s) (wire s)). split; [exact Hset |].
    rewrite getitem_valid by assumption. simpl.
    rewrite (Hbits row column Hcell), !Z.eqb_refl. simpl.
    now rewrite is_bit_as_bit.
  - intros Hbit. now apply setitem_not_bit.
Qed.

(** X2.  Reading a valid cell of a sixteen-byte buffer returns 0 or 1
    and changes nothing in the object. *)
Theorem getitem_reads_a_bit s (row column : Z) :
  wf_buffer (_display_buffer s) -> valid_cell row column ->
  exists b, __getitem__ (row, column) s = (Return b, s) /\ (b = 0 \/ b = 1).
Proof.
  intros Hwf Hcell. exists (bit_of (_display_buffer s) row column).
  split; [now apply getitem_valid | apply bit_of_bit].
Qed.

(** X3.  Storing into a cell the bit just read from it changes nothing:
    the object after the store is the object before. *)
Theorem setitem_write_back s (row column b : Z) (s0 : device bus E) :
  wf_buffer (_display_buffer s) -> valid_cell row column ->
  __getitem__ (row, column) s = (Return b, s0) ->
  __setitem__ (row, column) (PyInt b) s = (Return tt, s).
Proof.
  intros Hwf Hcell Hget.
  rewrite getitem_valid in Hget by assumption.
  injection Hget as Hb _.
  assert (Hbit : is_bit (PyInt b) = true).
  { destruct (bit_of_bit (_display_buffer s) row column) as [H0 | H1];
      rewrite <- Hb; [rewrite H0 | rewrite H1]; reflexivity. }
  destruct (setitem_valid s row column (PyInt b) Hwf Hcell Hbit)
    as (b' & Hset & Hwf' & Hbits).
  rewrite Hset. f_equal. etransitivity; [| apply device_eta]. f_equal.
  apply buffer_ext; [assumption | assumption |].
  intros row' column' Hcell'. rewrite (Hbits row' column' Hcell').
  destruct (Z.eqb_spec row' row) as [-> | _]; [| reflexivity].
  destruct (Z.eqb_spec column' column) as [-> | _]; [| reflexivity].
  simpl. rewrite is_bit_as_bit by exact Hbit. simpl. now symmetry.
Qed.

(** X4.  The last store to a cell wins: storing [v1] and then [v2] in the
    same valid cell leaves the object exactly as storing [v2] alone does
    (so storing the same bit twice is storing it once). *)
Theorem setitem_last_wins s (row column : Z) (v1 v2 : pyval) :
  wf_buffer (_display_buffer s) -> valid_cell row column ->
  is_bit v1 = true -> is_bit v2 = true ->
  bind (__setitem__ (row, column) v1) (fun _ => __setitem__ (row, column) v2) s
  = __setitem__ (row, column) v2 s.
Proof.
  intros Hwf Hcell Hv1 Hv2.
  destruct (setitem_twice s (row, column) (row, column) v1 v2 Hwf Hcell Hcell
              Hv1 Hv2) as (b12 & Hrun & Hwf12 & Hb12).
  destruct (setitem_valid s row column v2 Hwf Hcell Hv2)
    as (b2 & Hset & Hwf2 & Hb2).
  rewrite Hrun, Hset. f_equal. f_equal.
  apply buffer_ext; [assumption | assumption |].
  intros row' column' Hcell'.
  rewrite (Hb12 row' column' Hcell'), (Hb2 row' column' Hcell'). simpl.
  destruct ((row' =? row) && (column' =? column)); reflexivity.
Qed.

(** X5.  Stores to two different valid cells commute: either order leaves
    the same object. *)
Theorem setitem_commute s (k1 k2 : Z * Z) (v1 v2 : pyval) :
  wf_buffer (_display_buffer s) ->
  valid_cell (fst k1) (snd k1) -> valid_cell (fst k2) (snd k2) ->
  k1 <> k2 -> is_bit v1 = true -> is_bit v2 = true ->
  bind (__setitem__ k1 v1) (fun _ => __setitem__ k2 v2) s
  = bind (__setitem__ k2 v2) (fun _ => __setitem__ k1 v1) s.
Proof.
  intros Hwf Hk1 Hk2 Hne Hv1 Hv2.
  destruct (setitem_twice s k1 k2 v1 v2 Hwf Hk1 Hk2 Hv1 Hv2)
    as (b12 & Hrun12 & Hwf12 & Hb12).
  destruct (setitem_twice s k2 k1 v2 v1 Hwf Hk2 Hk1 Hv2 Hv1)
    as (b21 & Hrun21 & Hwf21 & Hb21).
  rewrite Hrun12, Hrun21. f_equal. f_equal.
  apply buffer_ext; [assumption | assumption |].
  intros row column Hcell.
  rewrite (Hb12 row column Hcell), (Hb21 row column Hcell).
  destruct k1 as [r1 c1], k2 as [r2 c2]. simpl.
  destruct (Z.eqb_spec row r2) as [-> | _]; simpl; [| reflexivity].
  destruct (Z.eqb_spec column c2) as [-> | _]; simpl; [| reflexivity].
  destruct (Z.eqb_spec r2 r1) as [-> | _]; simpl; [| reflexivity].
  destruct (Z.eqb_spec c2 c1) as [-> | _]; simpl; [| reflexivity].
  congruence.
Qed.

End MoreCells.

(** ** [fill] and [clear] *)

Lemma repeat_16_lookup (x : Z) (k : nat) :
  repeat x 16 !! k = if decide (k < 16)%nat then Some x else None.
Proof.
  do 16 (destruct k as [| k]; [reflexivity |]).
  case_decide; [lia | reflexivity].
Qed.

Lemma bit_of_repeat (b row column : Z) :
  valid_cell row column -> b = 0 \/ b = 1 ->
  bit_of (repeat (b * 255) 16) row column = b.
Proof.
  intros [Hr Hc] Hb. unfold bit_of. rewrite repeat_16_lookup.
  destruct (decide (Z.to_nat row < 16)%nat); [| lia].
  destruct Hb as [-> | ->].
  - change (Z.b2z (Z.testbit 0 column) = 0). now rewrite Z.bits_0.
  - change (Z.b2z (Z.testbit (Z.ones 8) column) = 1).
    now rewrite Z.ones_spec_low by lia.
Qed.

Lemma repeat_16_wf (b : Z) : b = 0 \/ b = 1 -> wf_buffer (repeat (b * 255) 16).
Proof.
  intros Hb. split; [reflexivity |].
  destruct Hb as [-> | ->]; simpl; repeat (constructor; [lia |]); constructor.
Qed.

Section Fill.

Context {bus E : Type}.
Implicit Types s : device bus E.

(** After the first [n] iterations of the loop of [fill]. *)
Lemma fill_prefix (x : Z) (n : nat) s :
  0 <= x < 256 -> (n <= length (_display_buffer s))%nat ->
  exists b',
    for_ (range (Z.of_nat n)) (fun row => buffer_setitem row x) s
    = (Return tt, Device b' (i2c s) (wire s))
    /\ length b' = length (_display_buffer s)
    /\ forall k : nat,
         b' !! k = if decide (k < n)%nat then Some x
                   else _display_buffer s !! k.
Proof.
  intros Hx. induction n as [| n IH]; intros Hn.
  - exists (_display_buffer s). split; [now rewrite device_eta |].
    split; [reflexivity |]. intros k.
    destruct (decide (k < 0)%nat); [lia | reflexivity].
  - destruct IH as (b1 & Hrun & Hlen & Hb1); [lia |].
    exists (<[n := x]> b1). split; [| split].
    + rewrite range_succ, for_app. unfold bind at 1. rewrite Hrun.
      cbn [for_]. rewrite bind_ret_tt. unfold buffer_setitem.
      cbn [_display_buffer i2c wire].
      rewrite py_index_valid by lia. rewrite Nat2Z.id.
      destruct (Z.leb_spec 0 x); [| lia].
      destruct (Z.ltb_spec x 256); [| lia]. reflexivity.
    + now rewrite length_insert.
    + intros k. destruct (decide (k = n)) as [-> | Hne].
      * rewrite list_lookup_insert_eq by lia.
        destruct (decide (n < S n)%nat); [reflexivity | lia].
      * rewrite list_lookup_insert_ne by congruence. rewrite Hb1.
        destruct (decide (k < n)%nat); destruct (decide (k < S n)%nat);
          try reflexivity; lia.
Qed.

Lemma fill_run (value : pyval) s :
  length (_display_buffer s) = 16%nat -> is_bit value = true ->
  fill value s
  = (Return tt, Device (repeat (as_bit value * 255) 16) (i2c s) (wire s)).
Proof.
  intros Hlen Hbit.
  assert (Hb : as_bit value = 0 \/ as_bit value = 1).
  { destruct (is_bit_cases value Hbit) as [-> | [-> | [-> | ->]]]; auto. }
  destruct (fill_prefix (as_bit value * 255) 16 s) as (b' & Hrun & Hlen' & Hb');
    [lia | lia |].
  assert (Heq : b' = repeat (as_bit value * 255) 16).
  { apply list_eq. intros k. rewrite Hb', repeat_16_lookup.
    destruct (decide (k < 16)%nat); [reflexivity |].
    apply lookup_ge_None_2. lia. }
  rewrite <- Heq, <- Hrun.
  destruct (is_bit_cases value Hbit) as [-> | [-> | [-> | ->]]]; reflexivity.
Qed.

Lemma fill_not_bit (value : pyval) s :
  is_bit value = false -> fill value s = (Raise AssertionError, s).
Proof.
  intros Hbit. unfold fill. run.
  destruct value as [z | [|] |]; try discriminate Hbit; [| reflexivity].
  unfold is_bit, py_in in Hbit. simpl in Hbit. unfold py_in. simpl.
  destruct (z =? 0); [discriminate |]. destruct (z =? 1); [discriminate |].
  reflexivity.
Qed.

(** X6.  [fill] with a bit (0, 1, False or True) on a sixteen-row buffer
    returns without touching the bus; afterwards every row holds the bit
    times 255 and every valid cell reads as the bit. *)
Theorem fill_fills (value : pyval) s :
  length (_display_buffer s) = 16%nat -> is_bit value = true ->
  exists s',
    fill value s = (Return tt, s')
    /\ _display_buffer s' = repeat (as_bit value * 255) 16
    /\ i2c s' = i2c s /\ wire s' = wire s
    /\ forall row column, valid_cell row column ->
         __getitem__ (row, column) s' = (Return (as_bit value), s').
Proof.
  intros Hlen Hbit.
  assert (Hb : as_bit value = 0 \/ as_bit value = 1).
  { destruct (is_bit_cases value Hbit) as [-> | [-> | [-> | ->]]]; auto. }
  exists (Device (repeat (as_bit value * 255) 16) (i2c s) (wire s)).
  split; [now apply fill_run |].
  split; [reflexivity |]. split; [reflexivity |]. split; [reflexivity |].
  intros row column Hcell.
  rewrite getitem_valid by (try assumption; now apply repeat_16_wf).
  cbn [_display_buffer]. now rewrite bit_of_repeat.
Qed.

(** X7.  [fill] with anything that is not a bit fails its assertion
    before the first row is written: the object is left as it was. *)
Theorem fill_rejects (value : pyval) s :
  is_bit value = false -> fill value s = (Raise AssertionError, s).
Proof. apply fill_not_bit. Qed.

(** X8.  [clear] on a sixteen-row buffer returns without touching the
    bus and leaves the buffer a new object starts with: sixteen zero
    rows, every valid cell reading 0. *)
Theorem clear_clears s :
  length (_display_buffer s) = 16%nat ->
  clear s = (Return tt, Device (repeat 0 16) (i2c s) (wire s))
  /\ forall row column, valid_cell row column ->
       __getitem__ (row, column) (Device (repeat 0 16) (i2c s) (wire s))
       = (Return 0, Device (repeat 0 16) (i2c s) (wire s)).
Proof.
  intros Hlen. split.
  - unfold clear. now rewrite fill_run.
  - intros row column Hcell.
    rewrite getitem_valid by (try assumption; apply (repeat_16_wf 0); auto).
    cbn [_display_buffer]. f_equal. f_equal.
    apply (bit_of_repeat 0 row column Hcell). auto.
Qed.

End Fill.

(** ** [write_bitmap] among the other methods *)

Lemma constant_bitmap_matrix (e : pyval) :
  is_bit e = true -> bit_matrix (constant_bitmap e).
Proof.
  intros He. apply bit_matrix_check. unfold constant_bitmap.
  cbn [length repeat Nat.eqb andb forallb]. unfold good_row.
  cbn [length repeat forallb]. rewrite He. reflexivity.
Qed.

Lemma constant_bitmap_cell (e : pyval) (row column : Z) :
  valid_cell row column ->
  bitmap_cell (constant_bitmap e) row column = Some e.
Proof.
  intros [Hr Hc]. unfold bitmap_cell, constant_bitmap.
  assert (Hrow : repeat (repeat e 8) 16 !! Z.to_nat row = Some (repeat e 8)).
  { assert (Hn : (Z.to_nat row < 16)%nat) by lia. revert Hn.
    generalize (Z.to_nat row). intros k Hk.
    do 16 (destruct k as [| k]; [reflexivity |]). lia. }
  rewrite Hrow.
  assert (Hn : (Z.to_nat column < 8)%nat) by lia. revert Hn.
  generalize (Z.to_nat column). intros k Hk.
  do 8 (destruct k as [| k]; [reflexivity |]). lia.
Qed.

Section MoreBitmap.

Context {bus E : Type}.
Variable i2c_write : Z -> bus -> bus * option E.
Variable i2c_register_write_u8 : Z -> Z -> bus -> bus * option E.
Implicit Types s : device bus E.

Lemma write_bitmap_run (bitmap : list (list pyval)) s :
  wf_buffer (_display_buffer s) -> bit_matrix bitmap ->
  exists b',
    write_bitmap bitmap s = (Return tt, Device b' (i2c s) (wire s))
    /\ wf_buffer b'
    /\ forall row column, valid_cell row column ->
         forall e, bitmap_cell bitmap row column = Some e ->
         bit_of b' row column = bit_value e.
Proof.
  intros Hwf Hm.
  destruct (copy_rows_prefix bitmap 16 s Hm Hwf) as (b' & Hrun & Hwf' & Hbits);
    [lia |].
  exists b'. split; [| split; [exact Hwf' |]].
  - rewrite write_bitmap_unfold. unfold bind at 1.
    pose proof (bit_matrix_good bitmap Hm) as Hgood.
    destruct Hm as [Hlen _]. rewrite Hlen.
    change (assert (Z.of_nat 16 =? HT16K33._MEM_ROWS) s)
      with (Return (E := E) tt, s).
    cbv beta iota. unfold bind at 1.
    rewrite check_rows_spec, Hgood. exact Hrun.
  - intros row column Hcell e He.
    rewrite (Hbits row column Hcell e He).
    destruct Hcell as [Hr _].
    destruct (Z.ltb_spec row (Z.of_nat 16)); [reflexivity | lia].
Qed.

Lemma write_bitmap_cases (bitmap : list (list pyval)) s :
  bit_matrix bitmap \/ write_bitmap bitmap s = (Raise AssertionError, s).
Proof.
  destruct (Nat.eqb (length bitmap) 16 && forallb good_row bitmap) eqn:Hchk.
  - left. now apply bit_matrix_check.
  - right. rewrite write_bitmap_unfold. unfold bind at 1. unfold assert at 1.
    destruct (Z.eqb_spec (Z.of_nat (length bitmap)) HT16K33._MEM_ROWS)
      as [Hlen | Hlen]; [| reflexivity].
    cbv beta iota. unfold ret at 1. unfold bind at 1.
    rewrite check_rows_spec.
    apply andb_false_iff in Hchk. destruct Hchk as [Hn | Hg].
    + apply Nat.eqb_neq in Hn. unfold HT16K33._MEM_ROWS in Hlen. lia.
    + rewrite Hg. reflexivity.
Qed.

(** X9.  [fill] with a bit does what [write_bitmap] does with the 16 x 8
    matrix holding that bit in every cell: the same result and the same
    object. *)
Theorem fill_as_bitmap (e : pyval) s :
  wf_buffer (_display_buffer s) -> is_bit e = true ->
  fill e s = write_bitmap (constant_bitmap e) s.
Proof.
  intros Hwf He.
  assert (Hb : as_bit e = 0 \/ as_bit e = 1).
  { destruct (is_bit_cases e He) as [-> | [-> | [-> | ->]]]; auto. }
  destruct (write_bitmap_run (constant_bitmap e) s Hwf
              (constant_bitmap_matrix e He)) as (b' & Hrun & Hwf' & Hbits).
  rewrite Hrun, fill_run by (apply Hwf || assumption).
  f_equal. f_equal.
  apply buffer_ext; [now apply repeat_16_wf | assumption |].
  intros row column Hcell.
  rewrite (Hbits row column Hcell e (constant_bitmap_cell e row column Hcell)).
  rewrite bit_of_repeat by assumption. now apply bit_value_as_bit.
Qed.

(** X10.  [write_bitmap] overwrites the whole buffer: for a 16 x 8 bit
    matrix the buffer it leaves does not depend on the buffer it found,
    and loading the same matrix a second time changes nothing. *)
Theorem write_bitmap_overwrites (bitmap : list (list pyval)) s1 s2 :
  wf_buffer (_display_buffer s1) -> wf_buffer (_display_buffer s2) ->
  bit_matrix bitmap ->
  _display_buffer (snd (write_bitmap bitmap s1))
  = _display_buffer (snd (write_bitmap bitmap s2))
  /\ write_bitmap bitmap (snd (write_bitmap bitmap s1))
     = (Return tt, snd (write_bitmap bitmap s1)).
Proof.
  intros Hwf1 Hwf2 Hm.
  destruct (write_bitmap_run bitmap s1 Hwf1 Hm) as (b1 & Hrun1 & Hwfb1 & Hb1).
  destruct (write_bitmap_run bitmap s2 Hwf2 Hm) as (b2 & Hrun2 & Hwfb2 & Hb2).
  rewrite Hrun1, Hrun2. cbn [snd _display_buffer]. split.
  - apply buffer_ext; [assumption | assumption |].
    intros row column Hcell.
    destruct (bit_matrix_cell bitmap row column Hm Hcell) as (e & He & _).
    now rewrite (Hb1 row column Hcell e He), (Hb2 row column Hcell e He).
  - destruct (write_bitmap_run bitmap (Device b1 (i2c s1) (wire s1)) Hwfb1 Hm)
      as (b3 & Hrun3 & Hwfb3 & Hb3).
    rewrite Hrun3. cbn [i2c wire]. f_equal. f_equal.
    apply buffer_ext; [assumption | assumption |].
    intros row column Hcell.
    destruct (bit_matrix_cell bitmap row column Hm Hcell) as (e & He & _).
    now rewrite (Hb3 row column Hcell e He), (Hb1 row column Hcell e He).
Qed.

(** X11.  Loading a 16 x 8 bit matrix and flushing puts the matrix on
    the bus: the calls made on the bus are the register writes of the
    loaded buffer, up to the first one the bus raises on, and the byte
    written to address [row] is a byte whose bit [column] is the matrix
    cell at (row, column). *)
Theorem write_bitmap_then_flush (bitmap : list (list pyval)) s :
  wf_buffer (_display_buffer s) -> bit_matrix bitmap ->
  exists b',
    write_bitmap bitmap s = (Return tt, Device b' (i2c s) (wire s))
    /\ puts_on_bus i2c_write i2c_register_write_u8
         (row_writes b') (Device b' (i2c s) (wire s))
         (bind (write_bitmap bitmap)
            (fun _ => flush i2c_write i2c_register_write_u8) s)
    /\ forall row column, valid_cell row column ->
         exists v e,
           row_writes b' !! Z.to_nat row = Some (RegisterWriteU8 row v)
           /\ 0 <= v < 256
           /\ bitmap_cell bitmap row column = Some e
           /\ Z.b2z (Z.testbit v column) = as_bit e.
Proof.
  intros Hwf Hm.
  destruct (write_bitmap_run bitmap s Hwf Hm) as (b' & Hrun & Hwf' & Hbits).
  exists b'. split; [exact Hrun |]. split.
  - unfold bind. rewrite Hrun.
    rewrite flush_as_calls by apply Hwf'. apply for_perform.
  - intros row column Hcell.
    destruct (bit_matrix_cell bitmap row column Hm Hcell) as (e & He & Hbit).
    destruct Hcell as [Hr Hc].
    destruct (wf_buffer_lookup b' row Hwf' Hr) as (v & Hv & Hbyte).
    exists v, e. split; [| split; [exact Hbyte | split; [exact He |]]].
    + unfold row_writes.
      rewrite list_lookup_fmap, lookup_seq_lt by lia.
      change (0 + Z.to_nat row)%nat with (Z.to_nat row).
      cbn [fmap option_fmap option_map]. rewrite Hv, Z2Nat.id by lia.
      reflexivity.
    + assert (Hcell : valid_cell row column) by (split; assumption).
      specialize (Hbits row column Hcell e He). unfold bit_of in Hbits.
      rewrite Hv in Hbits. cbn [default from_option id] in Hbits.
      rewrite Hbits. now rewrite is_bit_as_bit.
Qed.

End MoreBitmap.

(** ** What every method keeps *)

Section Invariants.

Context {bus E : Type}.
Variable i2c_write : Z -> bus -> bus * option E.
Variable i2c_register_write_u8 : Z -> Z -> bus -> bus * option E.
Implicit Types s : device bus E.

Local Abbreviation invoke_ := (invoke i2c_write i2c_register_write_u8).
Local Abbreviation session_ := (session i2c_write i2c_register_write_u8).
Local Abbreviation init_ := (__init__ i2c_write i2c_register_write_u8).

Lemma valid_cell_dec (row column : Z) :
  {valid_cell row column} + {~ valid_cell row column}.
Proof.
  unfold valid_cell.
  destruct (decide (0 <= row < 16 /\ 0 <= column < 8)); [left | right];
    assumption.
Defined.

Lemma getitem_state (key : Z * Z) s :
  wf_buffer (_display_buffer s) -> snd (__getitem__ key s) = s.
Proof.
  intros Hwf. destruct key as [row column].
  destruct (valid_cell_dec row column) as [Hv | Hn].
  - now rewrite getitem_valid.
  - now rewrite getitem_invalid.
Qed.

(** [__setitem__] with any arguments: the buffer stays sixteen bytes and
    the bus is left alone. *)
Lemma setitem_state (key : Z * Z) (value : pyval) s :
  wf_buffer (_display_buffer s) ->
  wf_buffer (_display_buffer (snd (__setitem__ key value s)))
  /\ i2c (snd (__setitem__ key value s)) = i2c s
  /\ wire (snd (__setitem__ key value s)) = wire s.
Proof.
  intros Hwf. destruct key as [row column].
  destruct (valid_cell_dec row column) as [Hv | Hn].
  - destruct (is_bit value) eqn:Hbit.
    + destruct (setitem_valid s row column value Hwf Hv Hbit)
        as (b' & Hset & Hwf' & _).
      rewrite Hset. auto.
    + rewrite setitem_not_bit by exact Hbit. auto.
  - rewrite setitem_invalid by exact Hn. auto.
Qed.

Lemma fill_state (value : pyval) s :
  wf_buffer (_display_buffer s) ->
  wf_buffer (_display_buffer (snd (fill value s)))
  /\ i2c (snd (fill value s)) = i2c s
  /\ wire (snd (fill value s)) = wire s.
Proof.
  intros Hwf. destruct (is_bit value) eqn:Hbit.
  - rewrite fill_run by (apply Hwf || exact Hbit).
    split; [| auto]. apply repeat_16_wf.
    destruct (is_bit_cases value Hbit) as [-> | [-> | [-> | ->]]]; auto.
  - rewrite fill_not_bit by exact Hbit. auto.
Qed.

Lemma write_bitmap_state (bitmap : list (list pyval)) s :
  wf_buffer (_display_buffer s) ->
  wf_buffer (_display_buffer (snd (write_bitmap bitmap s)))
  /\ i2c (snd (write_bitmap bitmap s)) = i2c s
  /\ wire (snd (write_bitmap bitmap s)) = wire s.
Proof.
  intros Hwf. destruct (write_bitmap_cases bitmap s) as [Hm | Hbad].
  - destruct (write_bitmap_run bitmap s Hwf Hm) as (b' & Hrun & Hwf' & _).
    rewrite Hrun. auto.
  - rewrite Hbad. auto.
Qed.

Lemma setter_buffer (c : bool) (byte : Z) s :
  _display_buffer
    (snd (bind (assert c)
            (fun _ => write i2c_write i2c_register_write_u8 byte) s))
  = _display_buffer s.
Proof.
  destruct c; [| reflexivity]. apply perform_buffer.
Qed.

Lemma flush_buffer s :
  wf_buffer (_display_buffer s) ->
  _display_buffer (snd (flush i2c_write i2c_register_write_u8 s))
  = _display_buffer s.
Proof.
  intros [Hlen _]. rewrite flush_as_calls by exact Hlen.
  apply for_perform_buffer.
Qed.

Lemma invoke_keeps_buffer (m : method) s :
  wf_buffer (_display_buffer s) ->
  wf_buffer (_display_buffer (snd (invoke_ m s))).
Proof.
  intros Hwf. destruct m as [v | v | | v | | bitmap | key | key v | key];
    cbn [invoke].
  - unfold set_brightness. now rewrite setter_buffer.
  - unfold set_blink_rate. now rewrite setter_buffer.
  - now rewrite flush_buffer.
  - now apply fill_state.
  - now apply fill_state.
  - now apply write_bitmap_state.
  - pose proof (getitem_state key s Hwf) as Hs. unfold bind, ret.
    destruct (__getitem__ key s) as [[b | e] s1]; simpl in Hs; subst s1;
      exact Hwf.
  - now apply setitem_state.
  - exact Hwf.
Qed.

Lemma init_buffer (h : bus) :
  _display_buffer (snd (init_ h)) = repeat 0 16.
Proof.
  rewrite init_as_calls.
  apply (for_perform_buffer i2c_write i2c_register_write_u8 init_calls
           (Device (repeat 0 16%nat) h [])).
Qed.

(** X12.  The buffer is sixteen bytes for the whole life of the object:
    the constructor leaves it so, whether or not the bus answered, and so
    does every later call of a method, with whatever arguments, whether
    it returns or raises. *)
Theorem session_keeps_buffer (ms : list method) (h : bus) :
  wf_buffer (_display_buffer (session_ ms (snd (init_ h)))).
Proof.
  assert (Hinit : wf_buffer (_display_buffer (snd (init_ h)))).
  { rewrite init_buffer. apply (repeat_16_wf 0). auto. }
  revert Hinit. generalize (snd (init_ h)).
  unfold session. induction ms as [| m ms IH]; intros s Hwf.
  - exact Hwf.
  - cbn [fold_left]. apply IH. now apply invoke_keeps_buffer.
Qed.

(** X13.  The methods that work on the software buffer ([fill], [clear],
    [write_bitmap], the three item accessors) never reach the bus: on a
    sixteen-byte buffer, whatever their arguments and whether they return
    or raise, the bus and the record of its calls are as before. *)
Theorem buffer_methods_leave_bus (m : method) s :
  wf_buffer (_display_buffer s) -> buffer_only m = true ->
  i2c (snd (invoke_ m s)) = i2c s /\ wire (snd (invoke_ m s)) = wire s.
Proof.
  intros Hwf Hm.
  destruct m as [v | v | | v | | bitmap | key | key v | key];
    try discriminate Hm; cbn [invoke].
  - now apply fill_state.
  - now apply fill_state.
  - now apply write_bitmap_state.
  - pose proof (getitem_state key s Hwf) as Hs. unfold bind, ret.
    destruct (__getitem__ key s) as [[b | e] s1]; simpl in Hs; subst s1;
      auto.
  - now apply setitem_state.
  - auto.
Qed.

(** X14.  A new object reads 0 in every valid cell, whether construction
    returned or a bus call raised. *)
Theorem init_reads_zero (h : bus) (row column : Z) :
  valid_cell row column ->
  __getitem__ (row, column) (snd (init_ h)) = (Return 0, snd (init_ h)).
Proof.
  intros Hcell.
  assert (Hwf : wf_buffer (_display_buffer (snd (init_ h)))).
  { rewrite init_buffer. apply (repeat_16_wf 0). auto. }
  rewrite getitem_valid by assumption. rewrite init_buffer.
  f_equal. f_equal. apply (bit_of_repeat 0 row column Hcell). auto.
Qed.

End Invariants.

(** ** [__iter__] *)

Lemma in_range (n z : Z) : In z (range n) <-> 0 <= z < n.
Proof.
  unfold range. rewrite in_map_iff. split.
  - intros (k & <- & Hk). apply in_seq in Hk. lia.
  - intros Hz. exists (Z.to_nat z). split; [lia |]. apply in_seq. lia.
Qed.

Section Iteration.

Context {bus E : Type}.
Implicit Types self : device bus E.

(** X15.  Iterating over the object yields the 128 valid keys ([rows]
    times [columns] of them) and nothing else, each once, in row-major
    order: the key (row, column) is the one numbered 8 * row + column.  On
    a sixteen-byte buffer every yielded key can be read. *)
Theorem iter_enumerates self :
  length (__iter__ self) = 128%nat
  /\ Z.of_nat (length (__iter__ self)) = rows self * columns self
  /\ NoDup (__iter__ self)
  /\ (forall key, In key (__iter__ self) <-> valid_cell (fst key) (snd key))
  /\ (forall row column, valid_cell row column ->
        __iter__ self !! Z.to_nat (8 * row + column) = Some (row, column))
  /\ (wf_buffer (_display_buffer self) ->
      forall key, In key (__iter__ self) ->
        exists b, __getitem__ key self = (Return b, self)).
Proof.
  assert (Hin : forall key,
             In key (__iter__ self) <-> valid_cell (fst key) (snd key)).
  { intros [row column]. unfold __iter__, valid_cell. cbn [fst snd].
    rewrite in_flat_map. split.
    - intros (r & Hr & Hk). apply in_map_iff in Hk.
      destruct Hk as (c & Heq & Hc). injection Heq as <- <-.
      apply in_range in Hr. apply in_range in Hc.
      unfold HT16K33._MEM_ROWS, HT16K33._MEM_COLS in *. lia.
    - intros [Hr Hc]. exists row. split; [now apply in_range |].
      apply in_map_iff. exists column. split; [reflexivity |].
      now apply in_range. }
  split; [reflexivity |]. split; [reflexivity |].
  split; [| split; [exact Hin | split]].
  - apply (bool_decide_unpack _). vm_compute. exact I.
  - intros row column [Hr Hc].
    assert (Hrc : exists r c : nat,
               row = Z.of_nat r /\ column = Z.of_nat c
               /\ (r < 16)%nat /\ (c < 8)%nat).
    { exists (Z.to_nat row), (Z.to_nat column). lia. }
    destruct Hrc as (r & c & -> & -> & Hlr & Hlc).
    do 16 (destruct r as [| r];
           [do 8 (destruct c as [| c]; [reflexivity |]); lia |]).
    lia.
  - intros Hwf [row column] Hkey. apply Hin in Hkey.
    exists (bit_of (_display_buffer self) row column).
    now apply getitem_valid.
Qed.

End Iteration.

(** ** [__str__] and [__repr__] *)

Lemma map_by_index {A : Type} (f : Z -> A) (l : list Z) :
  map f l = map (fun k => f (default 0 (l !! k))) (seq 0 (length l)).
Proof.
  revert f. induction l as [| x l IH]; intros f; [reflexivity |].
  cbn [map length seq]. rewrite <- seq_shift, map_map. f_equal.
  apply IH.
Qed.

(** The text of one row byte is the text of its eight bits, bit 0
    first; checked on each of the 256 bytes. *)
Lemma render_byte (v : Z) :
  0 <= v < 256 ->
  String.concat " " (rev (py_list_of_str (format_0b 8 v)))
  = String.concat " "
      (map (fun column => bit_char (Z.b2z (Z.testbit v column))) (range 8)).
Proof.
  intros Hv.
  assert (Hall :
    forallb (fun n =>
      String.eqb
        (String.concat " " (rev (py_list_of_str (format_0b 8 (Z.of_nat n)))))
        (String.concat " "
           (map (fun column =>
                   bit_char (Z.b2z (Z.testbit (Z.of_nat n) column)))
                (range 8))))
      (seq 0 256) = true) by (vm_compute; reflexivity).
  rewrite forallb_forall in Hall. specialize (Hall (Z.to_nat v)).
  rewrite Z2Nat.id in Hall by lia.
  apply String.eqb_eq, Hall, in_seq. lia.
Qed.

Section Rendering.

Context {bus E : Type}.
Implicit Types self : device bus E.

(** X16.  The text of the object has one line per row, in row order,
    and a line lists the eight cells of its row from column 0 to column
    7, as the characters 0 and 1 separated by single spaces: the
    character for (row, column) is the bit [__getitem__] returns there.
    [__repr__] gives the same text. *)
Theorem str_renders_cells self :
  wf_buffer (_display_buffer self) ->
  __str__ self
  = String.concat newline
      (map (fun row =>
              String.concat " "
                (map (fun column =>
                        bit_char (bit_of (_display_buffer self) row column))
                     (range 8)))
           (range 16))
  /\ __repr__ self = __str__ self
  /\ forall row column, valid_cell row column ->
       __getitem__ (row, column) self
       = (Return (bit_of (_display_buffer self) row column), self).
Proof.
  intros Hwf. split; [| split; [reflexivity |]].
  - unfold __str__. cbv zeta. f_equal.
    rewrite map_by_index. destruct Hwf as [Hlen Hall]. rewrite Hlen.
    unfold range at 2. change (Z.to_nat 16) with 16%nat. rewrite map_map.
    apply map_ext_in. intros k Hk. apply in_seq in Hk.
    destruct (wf_buffer_lookup (_display_buffer self) (Z.of_nat k))
      as (v & Hv & Hbyte); [split; assumption | lia |].
    rewrite Nat2Z.id in Hv. rewrite Hv. cbn [default from_option id].
    change (Z.to_nat HT16K33._MEM_COLS) with 8%nat.
    rewrite render_byte by exact Hbyte.
    f_equal. apply map_ext. intros column. unfold bit_of.
    now rewrite Nat2Z.id, Hv.
  - intros row column Hcell. now apply getitem_valid.
Qed.

End Rendering.

(** ** Command bytes can be told apart *)

Section Decoding.

Context {bus E : Type}.
Variable i2c_write : Z -> bus -> bus * option E.
Variable i2c_register_write_u8 : Z -> Z -> bus -> bus * option E.
Implicit Types s : device bus E.

(** The nibbles of the brightness byte, checked on the sixteen levels. *)
Lemma brightness_nibbles (level : Z) :
  0 <= level <= 15 ->
  Z.land (Z.lor 0xE0 level) 0x0F = level
  /\ Z.shiftr (Z.lor 0xE0 level) 4 = 0xE.
Proof.
  intros Hl.
  assert (Hall :
    forallb (fun n =>
      (Z.land (Z.lor 0xE0 (Z.of_nat n)) 0x0F =? Z.of_nat n)
      && (Z.shiftr (Z.lor 0xE0 (Z.of_nat n)) 4 =? 0xE))
      (seq 0 16) = true) by reflexivity.
  rewrite forallb_forall in Hall. specialize (Hall (Z.to_nat level)).
  rewrite Z2Nat.id in Hall by lia.
  apply andb_true_iff in Hall; [| apply in_seq; lia].
  destruct Hall as [H1 H2]. split; now apply Z.eqb_eq.
Qed.

(** X17.  The byte [set_brightness] puts on the bus for a level in
    [0,15] carries the level in its low four bits under the high nibble
    0xE: the level can be read back from the byte, and two levels never
    share a byte. *)
Theorem brightness_decodes s (level : Z) :
  0 <= level <= 15 ->
  exists byte,
    wire (snd (set_brightness i2c_write i2c_register_write_u8 level s))
    = wire s ++ [(RawWrite byte, snd (i2c_write byte (i2c s)))]
    /\ Z.land byte 0x0F = level
    /\ Z.shiftr byte 4 = 0xE.
Proof.
  intros Hl. exists (Z.lor 0xE0 level). split.
  - unfold set_brightness, HT16K33._CMD_BRIGHTNESS. run.
    destruct (Z.leb_spec 0 level); [| lia].
    destruct (Z.leb_spec level 15); [| lia]. cbn [andb].
    now rewrite write_spec.
  - now apply brightness_nibbles.
Qed.

(** X18.  The byte [set_blink_rate] puts on the bus for a mode in [0,3]
    carries the mode in bits 1 and 2, the display-on bit in bit 0 and
    the blink selector 0x80 above: the mode can be read back from the
    byte, and no blink byte is a brightness byte or the setup byte. *)
Theorem blink_decodes s (mode : Z) :
  0 <= mode <= 3 ->
  exists byte,
    wire (snd (set_blink_rate i2c_write i2c_register_write_u8 mode s))
    = wire s ++ [(RawWrite byte, snd (i2c_write byte (i2c s)))]
    /\ Z.land (Z.shiftr byte 1) 0x03 = mode
    /\ Z.land byte 0x01 = 0x01
    /\ Z.shiftr byte 3 = 0x10
    /\ Z.shiftr byte 4 <> 0xE /\ byte <> 0x21.
Proof.
  intros Hm.
  exists (Z.lor (Z.lor 0x80 0x01) (Z.shiftl mode 1)).
  assert (Hc : mode = 0 \/ mode = 1 \/ mode = 2 \/ mode = 3) by lia.
  split.
  - unfold set_blink_rate. run.
    assert (Hin : existsb (Z.eqb mode)
                    [HT16K33.BLINK_OFF; HT16K33.BLINK_2HZ;
                     HT16K33.BLINK_1HZ; HT16K33.BLINK_HALFHZ] = true).
    { destruct Hc as [-> | [-> | [-> | ->]]]; reflexivity. }
    rewrite Hin. now rewrite write_spec.
  - destruct Hc as [-> | [-> | [-> | ->]]]; repeat split; discriminate.
Qed.

End Decoding.

(** ** The further properties at work on the counting bus *)

Lemma setitem_accepts_bits_witness :
  (exists s',
     __setitem__ (2, 3) (PyBool true) demo = (Return tt, s')
     /\ __getitem__ (2, 3) s' = (Return 1, s'))
  /\ __setitem__ (2, 3) (PyInt 2) demo = (Raise AssertionError, demo).
Proof.
  assert (Hcell : valid_cell 2 3) by (unfold valid_cell; lia).
  split.
  - apply (setitem_accepts_bits demo 2 3 (PyBool true) demo_wf Hcell).
    reflexivity.
  - apply (setitem_accepts_bits demo 2 3 (PyInt 2) demo_wf Hcell).
    reflexivity.
Defined.

Lemma getitem_reads_a_bit_witness :
  exists b, __getitem__ (0, 7) demo = (Return b, demo) /\ (b = 0 \/ b = 1).
Proof.
  apply (getitem_reads_a_bit demo 0 7 demo_wf). unfold valid_cell. lia.
Defined.

Lemma setitem_write_back_witness :
  __setitem__ (2, 7) (PyInt 1) demo = (Return tt, demo).
Proof.
  apply (setitem_write_back demo 2 7 1 demo demo_wf).
  - unfold valid_cell. lia.
  - reflexivity.
Defined.

Lemma setitem_last_wins_witness :
  bind (__setitem__ (4, 4) (PyInt 1))
       (fun _ => __setitem__ (4, 4) (PyBool false)) demo
  = __setitem__ (4, 4) (PyBool false) demo.
Proof.
  apply (setitem_last_wins demo 4 4 (PyInt 1) (PyBool false) demo_wf).
  - unfold valid_cell. lia.
  - reflexivity.
  - reflexivity.
Defined.

Lemma setitem_commute_witness :
  bind (__setitem__ (4, 4) (PyInt 1))
       (fun _ => __setitem__ (4, 5) (PyInt 1)) demo
  = bind (__setitem__ (4, 5) (PyInt 1))
         (fun _ => __setitem__ (4, 4) (PyInt 1)) demo.
Proof.
  apply (setitem_commute demo (4, 4) (4, 5) (PyInt 1) (PyInt 1) demo_wf).
  - unfold valid_cell. simpl. lia.
  - unfold valid_cell. simpl. lia.
  - discriminate.
  - reflexivity.
  - reflexivity.
Defined.

Lemma fill_fills_witness :
  exists s',
    fill (PyBool true) demo = (Return tt, s')
    /\ _display_buffer s' = repeat (as_bit (PyBool true) * 255) 16
    /\ i2c s' = i2c demo /\ wire s' = wire demo
    /\ forall row column, valid_cell row column ->
         __getitem__ (row, column) s' = (Return (as_bit (PyBool true)), s').
Proof.
  apply (fill_fills (PyBool true) demo); reflexivity.
Defined.

Lemma fill_rejects_witness :
  fill (PyInt 2) demo = (Raise AssertionError, demo)
  /\ fill PyNone demo = (Raise AssertionError, demo).
Proof.
  split.
  - apply (fill_rejects (PyInt 2) demo). reflexivity.
  - apply (fill_rejects PyNone demo). reflexivity.
Defined.

Lemma clear_clears_witness :
  clear demo = (Return tt, Device (repeat 0 16) (i2c demo) (wire demo))
  /\ forall row column, valid_cell row column ->
       __getitem__ (row, column) (Device (repeat 0 16) (i2c demo) (wire demo))
       = (Return 0, Device (repeat 0 16) (i2c demo) (wire demo)).
Proof.
  apply (clear_clears demo). reflexivity.
Defined.

Lemma fill_as_bitmap_witness :
  fill (PyInt 1) demo = write_bitmap (constant_bitmap (PyInt 1)) demo.
Proof.
  apply (fill_as_bitmap (PyInt 1) demo demo_wf). reflexivity.
Defined.

Lemma write_bitmap_overwrites_witness :
  _display_buffer (snd (write_bitmap chequer demo))
  = _display_buffer
      (snd (write_bitmap chequer
              (Device (E := nat) (repeat 0 16) 7%nat [])))
  /\ write_bitmap chequer (snd (write_bitmap chequer demo))
     = (Return tt, snd (write_bitmap chequer demo)).
Proof.
  apply (write_bitmap_overwrites chequer demo (Device (repeat 0 16) 7%nat [])).
  - exact demo_wf.
  - apply (repeat_16_wf 0). left. reflexivity.
  - apply bit_matrix_check. reflexivity.
Defined.

Lemma write_bitmap_then_flush_witness :
  exists b',
    write_bitmap chequer demo = (Return tt, Device b' (i2c demo) (wire demo))
    /\ puts_on_bus (flaky_write 4) (flaky_register_write_u8 4)
         (row_writes b') (Device b' (i2c demo) (wire demo))
         (bind (write_bitmap chequer)
            (fun _ => flush (flaky_write 4) (flaky_register_write_u8 4))
            demo)
    /\ forall row column, valid_cell row column ->
         exists v e,
           row_writes b' !! Z.to_nat row = Some (RegisterWriteU8 row v)
           /\ 0 <= v < 256
           /\ bitmap_cell chequer row column = Some e
           /\ Z.b2z (Z.testbit v column) = as_bit e.
Proof.
  apply (write_bitmap_then_flush (flaky_write 4) (flaky_register_write_u8 4)
           chequer demo demo_wf).
  apply bit_matrix_check. reflexivity.
Defined.

Lemma buffer_methods_leave_bus_witness :
  i2c (snd (invoke (flaky_write 0) (flaky_register_write_u8 0)
              (WriteBitmap chequer) demo)) = i2c demo
  /\ wire (snd (invoke (flaky_write 0) (flaky_register_write_u8 0)
                  (WriteBitmap chequer) demo)) = wire demo.
Proof.
  apply (buffer_methods_leave_bus (flaky_write 0) (flaky_register_write_u8 0)
           (WriteBitmap chequer) demo demo_wf).
  reflexivity.
Defined.

Lemma init_reads_zero_witness :
  __getitem__ (15, 7)
    (snd (__init__ (flaky_write 3) (flaky_register_write_u8 3) 0%nat))
  = (Return 0,
     snd (__init__ (flaky_write 3) (flaky_register_write_u8 3) 0%nat)).
Proof.
  apply (init_reads_zero (flaky_write 3) (flaky_register_write_u8 3)
           0%nat 15 7).
  unfold valid_cell. lia.
Defined.

Lemma iter_enumerates_witness :
  __iter__ demo !! Z.to_nat (8 * 9 + 6) = Some (9, 6)
  /\ exists b, __getitem__ (9, 6) demo = (Return b, demo).
Proof.
  destruct (iter_enumerates demo) as (_ & _ & _ & Hin & Hidx & Hread).
  assert (Hcell : valid_cell 9 6) by (unfold valid_cell; lia).
  split.
  - apply (Hidx 9 6 Hcell).
  - apply (Hread demo_wf (9, 6)). apply Hin. exact Hcell.
Defined.

Lemma str_renders_cells_witness :
  __str__ demo
  = String.concat newline
      (map (fun row =>
              String.concat " "
                (map (fun column =>
                        bit_char (bit_of (_display_buffer demo) row column))
                     (range 8)))
           (range 16))
  /\ __repr__ demo = __str__ demo
  /\ forall row column, valid_cell row column ->
       __getitem__ (row, column) demo
       = (Return (bit_of (_display_buffer demo) row column), demo).
Proof.
  apply (str_renders_cells demo demo_wf).
Defined.

Lemma brightness_decodes_witness :
  exists byte,
    wire (snd (set_brightness (flaky_write 9) (flaky_register_write_u8 9)
                 11 demo))
    = wire demo ++ [(RawWrite byte, snd (flaky_write 9 byte (i2c demo)))]
    /\ Z.land byte 0x0F = 11
    /\ Z.shiftr byte 4 = 0xE.
Proof.
  apply (brightness_decodes (flaky_write 9) (flaky_register_write_u8 9)
           demo 11).
  lia.
Defined.

Lemma blink_decodes_witness :
  exists byte,
    wire (snd (set_blink_rate (flaky_write 9) (flaky_register_write_u8 9)
                 3 demo))
    = wire demo ++ [(RawWrite byte, snd (flaky_write 9 byte (i2c demo)))]
    /\ Z.land (Z.shiftr byte 1) 0x03 = 3
    /\ Z.land byte 0x01 = 0x01
    /\ Z.shiftr byte 3 = 0x10
    /\ Z.shiftr byte 4 <> 0xE /\ byte <> 0x21.
Proof.
  apply (blink_decodes (flaky_write 9) (flaky_register_write_u8 9) demo 3).
  lia.
Defined.

(** The text of the demonstration device, as Python prints it. *)
Example str_of_demo_first_rows :
  String.concat newline
    ["1 1 1 1 1 1 1 1"; "0 0 0 0 0 0 0 0"; "1 0 0 0 0 0 0 1";
     "0 0 0 0 0 1 0 0"]%string
  = String.concat newline
      (map (fun row =>
              String.concat " "
                (rev (py_list_of_str (format_0b 8 row))))
           (take 4 (_display_buffer demo))).
Proof. reflexivity. Qed.
